(** * parsers/MN.py: the Mongolian grid snapshot parser

    A shallow embedding of [parse_json], [query], [fetch_production] and
    [fetch_consumption], together with the part of the Python runtime they
    rely on: binary64 floats ([float()], subtraction, [round(x, n)]), dict
    objects living on a heap, and exceptions. *)

From Stdlib Require Import ZArith String Ascii List Bool SpecFloat.
From stdpp Require Import gmap strings list fin_maps.

Local Open Scope string_scope.
Local Open Scope Z_scope.

Set Warnings "-register-all".

(** ** Python floats: IEEE 754 binary64 *)

Module PyFloat.

Definition prec : Z := 53.
Definition emax : Z := 1024.

Abbreviation float := spec_float.

(** [a - b] on two floats. *)
Definition sub (a b : float) : float := SFsub prec emax a b.

(** The float nearest to [n / d] (ties to even), for [0 <= n] and [0 < d];
    [s] is the sign.  This is what a correctly rounded decimal-to-binary
    conversion (strtod) computes once the decimal is written as a ratio. *)
Definition of_ratio (s : bool) (n d : Z) : float :=
  if n =? 0 then S754_zero s
  else
    let '(q, e, l) := SFdiv_core_binary prec emax n 0 d 0 in
    binary_round_aux prec emax s q e l.

(** The float nearest to the decimal [n * 10^e], [0 <= n]. *)
Definition of_decimal (s : bool) (n e : Z) : float :=
  if 0 <=? e then of_ratio s (n * 10 ^ e) 1 else of_ratio s n (10 ^ (- e)).

(** [float(n)] for a Python int: nearest float, [None] when the rounded
    value does not fit (Python raises OverflowError). *)
Definition of_int (n : Z) : option float :=
  match binary_normalize prec emax n 0 false with
  | S754_infinity _ => None
  | f => Some f
  end.

(** Nearest integer to [n / d], ties to even ([0 <= n], [0 < d]). *)
Definition div_half_even (n d : Z) : Z :=
  let q := n / d in
  let r := n mod d in
  match 2 * r ?= d with
  | Lt => q
  | Gt => q + 1
  | Eq => if Z.even q then q else q + 1
  end.

(** [|x| * 10^ndigits] rounded to an integer, ties to even, for a finite
    [x = m * 2^e]: the digit string that dtoa (mode 3) produces. *)
Definition scaled_digits (m : positive) (e : Z) (ndigits : N) : Z :=
  let n := Z.pos m * 10 ^ Z.of_N ndigits in
  if 0 <=? e then n * 2 ^ e else div_half_even n (2 ^ (- e)).

(** The largest [ndigits] for which rounding can change a float. *)
Definition NDIGITS_MAX : N := 323.

(** [round(x, ndigits)] on a float, for a natural [ndigits]: the value is
    rounded to a decimal string with [ndigits] places (ties to even on the
    exact binary value) and the string is converted back to a float.
    Infinities and nans round to themselves, and the sign of a result
    that rounds to zero is kept. *)
Definition round (x : float) (ndigits : N) : float :=
  match x with
  | S754_finite s m e =>
      if (NDIGITS_MAX <? ndigits)%N then x
      else of_decimal s (scaled_digits m e ndigits) (- Z.of_N ndigits)
  | _ => x
  end.

(** *** [float(str)] *)

Definition is_space (c : ascii) : bool :=
  let n := Z.of_N (N_of_ascii c) in
  ((9 <=? n) && (n <=? 13)) || (n =? 32).

Definition digit_of (c : ascii) : option Z :=
  let n := Z.of_N (N_of_ascii c) in
  if (48 <=? n) && (n <=? 57) then Some (n - 48) else None.

Definition is_digit (c : ascii) : bool :=
  match digit_of c with Some _ => true | None => false end.

Definition lower (c : ascii) : ascii :=
  let n := N_of_ascii c in
  if ((65 <=? n) && (n <=? 90))%N then ascii_of_N (n + 32) else c.

Fixpoint lstrip (s : list ascii) : list ascii :=
  match s with
  | c :: s' => if is_space c then lstrip s' else s
  | [] => []
  end.

(** Leading and trailing whitespace is dropped. *)
Definition strip (s : list ascii) : list ascii :=
  rev (lstrip (rev (lstrip s))).

(** Underscores are allowed only between two digits; the result is the
    text with the underscores taken out. [prev] is the previous character. *)
Fixpoint drop_underscores (prev : option ascii) (s : list ascii)
  : option (list ascii) :=
  match s with
  | [] =>
      match prev with
      | Some "_"%char => None
      | _ => Some []
      end
  | c :: s' =>
      if Ascii.eqb c "_" then
        match prev with
        | Some p => if is_digit p then drop_underscores (Some c) s' else None
        | None => None
        end
      else
        let ok :=
          match prev with
          | Some "_"%char => is_digit c
          | _ => true
          end in
        if ok then option_map (cons c) (drop_underscores (Some c) s')
        else None
  end.

(** A maximal run of digits: the number they spell after [acc], how many
    there are, and the rest of the text. *)
Fixpoint digits (acc : Z) (cnt : Z) (s : list ascii) : Z * Z * list ascii :=
  match s with
  | c :: s' =>
      match digit_of c with
      | Some d => digits (10 * acc + d) (cnt + 1) s'
      | None => (acc, cnt, s)
      end
  | [] => (acc, cnt, [])
  end.

Definition sign (s : list ascii) : bool * list ascii :=
  match s with
  | "-"%char :: s' => (true, s')
  | "+"%char :: s' => (false, s')
  | _ => (false, s)
  end.

(** The exponent part, which must reach the end of the text. *)
Definition exponent (s : list ascii) : option Z :=
  match s with
  | [] => Some 0
  | c :: s' =>
      if Ascii.eqb (lower c) "e" then
        let '(neg, s1) := sign s' in
        match digits 0 0 s1 with
        | (x, cnt, []) =>
            if 0 <? cnt then Some (if neg then - x else x) else None
        | _ => None
        end
      else None
  end.

(** [sign? (digits+ ('.' digits* )? | '.' digits+) ([eE] sign? digits+)?] *)
Definition number (s : list ascii) : option float :=
  let '(neg, s0) := sign s in
  let '(ip, icnt, s1) := digits 0 0 s0 in
  let '(m, fcnt, s2) :=
    match s1 with
    | "."%char :: s1' =>
        let '(m, fcnt, s2) := digits ip 0 s1' in (m, fcnt, s2)
    | _ => (ip, 0, s1)
    end in
  if 0 <? icnt + fcnt then
    match exponent s2 with
    | Some x => Some (of_decimal neg m (x - fcnt))
    | None => None
    end
  else None.

(** [sign? ("inf" | "infinity" | "nan")], in any letter case. *)
Definition inf_or_nan (s : list ascii) : option float :=
  let '(neg, s0) := sign s in
  let w := string_of_list_ascii (map lower s0) in
  if String.eqb w "inf" || String.eqb w "infinity" then Some (S754_infinity neg)
  else if String.eqb w "nan" then Some S754_nan
  else None.

(** *** Unicode in a str

    A [string] holds the UTF-8 encoding of a Python str. Before it parses a
    str that is not all ASCII, [float()] maps every Unicode decimal digit to
    its ASCII digit and every Unicode white space to a space; at the first
    other character outside ASCII the text is cut and ends with a question
    mark. The tables are those of Unicode 14.0 (CPython 3.11). *)

Definition byte (c : ascii) : Z := Z.of_N (N_of_ascii c).

Definition char (n : Z) : ascii := ascii_of_N (Z.to_N n).

(** The payload of a continuation byte, [10xxxxxx]. *)
Definition continuation (c : ascii) : option Z :=
  let n := byte c in
  if (128 <=? n) && (n <=? 191) then Some (n - 128) else None.

(** The code points of a UTF-8 text; a byte that starts no well-formed
    sequence gives [-1], which is no character. *)
Fixpoint code_points (s : list ascii) : list Z :=
  match s with
  | [] => []
  | b0 :: s1 =>
      let n0 := byte b0 in
      if n0 <? 128 then n0 :: code_points s1
      else
        match s1 with
        | b1 :: s2 =>
            match continuation b1 with
            | Some n1 =>
                if (194 <=? n0) && (n0 <=? 223) then
                  ((n0 - 192) * 64 + n1) :: code_points s2
                else
                  match s2 with
                  | b2 :: s3 =>
                      match continuation b2 with
                      | Some n2 =>
                          let cp3 := (n0 - 224) * 4096 + n1 * 64 + n2 in
                          if (224 <=? n0) && (n0 <=? 239) && (2048 <=? cp3) then
                            cp3 :: code_points s3
                          else
                            match s3 with
                            | b3 :: s4 =>
                                match continuation b3 with
                                | Some n3 =>
                                    let cp4 := (n0 - 240) * 262144 + n1 * 4096
                                               + n2 * 64 + n3 in
                                    if (240 <=? n0) && (n0 <=? 244)
                                       && (65536 <=? cp4) && (cp4 <=? 1114111)
                                    then cp4 :: code_points s4
                                    else (-1) :: code_points s1
                                | None => (-1) :: code_points s1
                                end
                            | [] => (-1) :: code_points s1
                            end
                      | None => (-1) :: code_points s1
                      end
                  | [] => (-1) :: code_points s1
                  end
            | None => (-1) :: code_points s1
            end
        | [] => [-1]
        end
  end.

(** The white space outside ASCII. *)
Definition is_unicode_space (cp : Z) : bool :=
  (cp =? 133) || (cp =? 160) || (cp =? 5760)
  || ((8192 <=? cp) && (cp <=? 8202))
  || (cp =? 8232) || (cp =? 8233) || (cp =? 8239) || (cp =? 8287) || (cp =? 12288).

(** The runs of decimal digits outside ASCII, first and last code point:
    within a run the digits 0 to 9 follow each other, once or several times. *)
Definition decimal_runs : list (Z * Z) :=
  [ (1632, 1641); (1776, 1785); (1984, 1993); (2406, 2415);
    (2534, 2543); (2662, 2671); (2790, 2799); (2918, 2927);
    (3046, 3055); (3174, 3183); (3302, 3311); (3430, 3439);
    (3558, 3567); (3664, 3673); (3792, 3801); (3872, 3881);
    (4160, 4169); (4240, 4249); (6112, 6121); (6160, 6169);
    (6470, 6479); (6608, 6617); (6784, 6793); (6800, 6809);
    (6992, 7001); (7088, 7097); (7232, 7241); (7248, 7257);
    (42528, 42537); (43216, 43225); (43264, 43273); (43472, 43481);
    (43504, 43513); (43600, 43609); (44016, 44025); (65296, 65305);
    (66720, 66729); (68912, 68921); (69734, 69743); (69872, 69881);
    (69942, 69951); (70096, 70105); (70384, 70393); (70736, 70745);
    (70864, 70873); (71248, 71257); (71360, 71369); (71472, 71481);
    (71904, 71913); (72016, 72025); (72784, 72793); (73040, 73049);
    (73120, 73129); (92768, 92777); (92864, 92873); (93008, 93017);
    (120782, 120831); (123200, 123209); (123632, 123641); (125264, 125273);
    (130032, 130041) ].

Definition unicode_decimal (cp : Z) : option Z :=
  match List.find (fun run => (fst run <=? cp) && (cp <=? snd run)) decimal_runs with
  | Some run => Some ((cp - fst run) mod 10)
  | None => None
  end.

Fixpoint to_ascii (cps : list Z) : list ascii :=
  match cps with
  | [] => []
  | cp :: rest =>
      if (0 <=? cp) && (cp <? 127) then char cp :: to_ascii rest
      else if is_unicode_space cp then " "%char :: to_ascii rest
      else
        match unicode_decimal cp with
        | Some d => char (48 + d) :: to_ascii rest
        | None => ["?"%char]
        end
  end.

(** An ASCII str is taken as it is. *)
Definition ascii_text (s : list ascii) : list ascii :=
  if forallb (fun c => byte c <? 128) s then s else to_ascii (code_points s).

(** [float(s)] for a str; [None] stands for ValueError. *)
Definition of_string (s : string) : option float :=
  match drop_underscores None (strip (ascii_text (list_ascii_of_string s))) with
  | Some t =>
      match number t with
      | Some f => Some f
      | None => inf_or_nan t
      end
  | None => None
  end.

End PyFloat.

(** ** Python values, heap objects and exceptions *)

(** [timezone("Asia/Ulaanbaatar")]: a zone is known by its name; the offset
    tables behind it are not modelled. *)
Inductive tzinfo := timezone (zone : string).

Record datetime := mk_datetime {
  year : Z; month : Z; day : Z;
  hour : Z; minute : Z; second : Z; microsecond : Z;
  tz : option tzinfo
}.

Definition loc := positive.

(** Immediate values; a dict or a list is an object on the heap and a value
    only refers to it. *)
Inductive value :=
| VNone
| VBool (b : bool)
| VInt (n : Z)
| VFloat (f : PyFloat.float)
| VStr (s : string)
| VDatetime (d : datetime)
| VRef (l : loc).

Inductive object :=
| ODict (d : gmap string value)
| OList (xs : list value).

(** A decoded JSON document, before its containers are allocated. *)
Inductive json :=
| JNull
| JBool (b : bool)
| JInt (n : Z)
| JFloat (f : PyFloat.float)
| JStr (s : string)
| JArr (xs : list json)
| JObj (kvs : list (string * json)).

(** The text of a [ParserException]: the f-strings of the source are kept as
    the data they interpolate, not rendered. *)
Inductive message :=
| MsgKeysMismatch (fetched : gset string) (expected : list string)
| MsgNull (fetched : gmap string value)
| MsgRequestFailed (status_code : Z).

Inductive exn :=
| ParserException (parser : string) (msg : message)
| NotImplementedError (msg : string)
| AttributeError
| KeyError (key : string)
| TypeError
| ValueError
| OverflowError
| SystemError
| LibraryError (name : string).

(** What the outside world can observe of a run. *)
Inductive event :=
| EvHttpGet (url : string)
| EvJsonLoads (text : string).

Record state := mk_state {
  heap : gmap loc object;
  trace : list event
}.

Inductive result (A : Type) :=
| Ok (a : A)
| Raise (e : exn).
Arguments Ok {A} a.
Arguments Raise {A} e.

(** ** The monad of Python computations: state and exceptions.
    A raised exception keeps the state reached so far. *)

Definition M (A : Type) : Type := state -> result A * state.

Definition ret {A} (a : A) : M A := fun st => (Ok a, st).

Definition raise {A} (e : exn) : M A := fun st => (Raise e, st).

Definition bind {A B} (m : M A) (k : A -> M B) : M B :=
  fun st =>
    match m st with
    | (Ok a, st') => k a st'
    | (Raise e, st') => (Raise e, st')
    end.

#[global] Instance M_ret : MRet M := @ret.
#[global] Instance M_bind : MBind M := fun A B k m => bind m k.

Definition lift {A} (r : result A) : M A :=
  match r with
  | Ok a => ret a
  | Raise e => raise e
  end.

Definition emit (ev : event) : M unit :=
  fun st => (Ok tt, mk_state (heap st) (trace st ++ [ev])).

(** A new object gets an address that is not in use. *)
Definition alloc (o : object) : M value :=
  fun st =>
    let l := fresh (dom (heap st)) in
    (Ok (VRef l), mk_state (<[l := o]> (heap st)) (trace st)).

(** [for x in xs: body] *)
Fixpoint for_each {A} (xs : list A) (body : A -> M unit) : M unit :=
  match xs with
  | [] => ret tt
  | x :: xs' => _ ← body x; for_each xs' body
  end.

(** *** Operations on objects *)

(** The dict behind a value, for a method only dicts have ([keys], [values]):
    anything else has no such attribute. *)
Definition dict_of (v : value) : M (gmap string value) :=
  fun st =>
    match v with
    | VRef l =>
        match heap st !! l with
        | Some (ODict d) => (Ok d, st)
        | Some (OList _) => (Raise AttributeError, st)
        | None => (Raise SystemError, st)
        end
    | _ => (Raise AttributeError, st)
    end.

(** [set(d.keys())] *)
Definition dict_keys (v : value) : M (gset string) :=
  d ← dict_of v; mret (dom d).

(** [d.values()], in the order of the map. *)
Definition dict_values (v : value) : M (list value) :=
  d ← dict_of v; mret ((map_to_list d).*2).

(** [d[key]] *)
Definition getitem (v : value) (key : string) : M value :=
  fun st =>
    match v with
    | VRef l =>
        match heap st !! l with
        | Some (ODict d) =>
            match d !! key with
            | Some x => (Ok x, st)
            | None => (Raise (KeyError key), st)
            end
        | Some (OList _) => (Raise TypeError, st)
        | None => (Raise SystemError, st)
        end
    | _ => (Raise TypeError, st)
    end.

(** [d[key] = x] *)
Definition setitem (v : value) (key : string) (x : value) : M unit :=
  fun st =>
    match v with
    | VRef l =>
        match heap st !! l with
        | Some (ODict d) =>
            (Ok tt, mk_state (<[l := ODict (<[key := x]> d)]> (heap st)) (trace st))
        | Some (OList _) => (Raise TypeError, st)
        | None => (Raise SystemError, st)
        end
    | _ => (Raise TypeError, st)
    end.

(** [x is None], which is what [None in ...] tests on each element: no other
    value compares equal to [None]. *)
Definition is_None (v : value) : bool :=
  match v with
  | VNone => true
  | _ => false
  end.

(** *** Built-in functions *)

(** [float(v)] *)
Definition py_float (v : value) : result PyFloat.float :=
  match v with
  | VFloat f => Ok f
  | VInt n =>
      match PyFloat.of_int n with
      | Some f => Ok f
      | None => Raise OverflowError
      end
  | VBool b => Ok (if b then PyFloat.of_decimal false 1 0 else S754_zero false)
  | VStr s =>
      match PyFloat.of_string s with
      | Some f => Ok f
      | None => Raise ValueError
      end
  | VNone | VDatetime _ | VRef _ => Raise TypeError
  end.

(** The number in a value: an int (a bool counts as one) or a float. *)
Definition number_of (v : value) : option (Z + PyFloat.float) :=
  match v with
  | VBool b => Some (inl (if b then 1 else 0))
  | VInt n => Some (inl n)
  | VFloat f => Some (inr f)
  | _ => None
  end.

(** [a - b] on numbers; an int operand next to a float is converted first.
    Operands that are not numbers are rejected (the difference of two
    datetimes, a timedelta, has no representation here). *)
Definition py_sub (a b : value) : result value :=
  match number_of a, number_of b with
  | Some (inl x), Some (inl y) => Ok (VInt (x - y))
  | Some (inr x), Some (inr y) => Ok (VFloat (PyFloat.sub x y))
  | Some (inl x), Some (inr y) =>
      match PyFloat.of_int x with
      | Some x' => Ok (VFloat (PyFloat.sub x' y))
      | None => Raise OverflowError
      end
  | Some (inr x), Some (inl y) =>
      match PyFloat.of_int y with
      | Some y' => Ok (VFloat (PyFloat.sub x y'))
      | None => Raise OverflowError
      end
  | _, _ => Raise TypeError
  end.

(** [round(v, ndigits)] for a natural [ndigits]: an int is its own rounding. *)
Definition py_round (v : value) (ndigits : N) : result value :=
  match number_of v with
  | Some (inl n) => Ok (VInt n)
  | Some (inr f) => Ok (VFloat (PyFloat.round f ndigits))
  | None => Raise TypeError
  end.

(** [bool(x)] of an optional datetime: only [None] is false. *)
Definition truthy (x : option datetime) : bool :=
  match x with
  | Some _ => true
  | None => false
  end.

(** ** requests *)

Record Response := mk_Response {
  status_code : Z;
  text : string
}.

(** [Response.ok]: true unless [raise_for_status()] would raise, which it
    does for the client and server error codes, 400 to 599. *)
Definition ok (r : Response) : bool :=
  negb ((400 <=? status_code r) && (status_code r <? 600)).

(** A session is what its next GET of a URL produces: a response, or an
    exception of the library (no connection, time-out, ...). *)
Definition Session := string -> result Response.

(** [session.get(url)] *)
Definition session_get (session : Session) (url : string) : M Response :=
  _ ← emit (EvHttpGet url); lift (session url).

Inductive Logger := getLogger (name : string).

(** ** json *)

(** The Python object for a decoded document: containers are allocated,
    members first; a key that occurs twice keeps its last value. *)
Fixpoint load (j : json) : M value :=
  match j with
  | JNull => mret VNone
  | JBool b => mret (VBool b)
  | JInt n => mret (VInt n)
  | JFloat f => mret (VFloat f)
  | JStr s => mret (VStr s)
  | JArr xs =>
      vs ← (fix load_items (xs : list json) : M (list value) :=
              match xs with
              | [] => mret []
              | x :: xs' => v ← load x; vs ← load_items xs'; mret (v :: vs)
              end) xs;
      alloc (OList vs)
  | JObj kvs =>
      d ← (fix load_members (kvs : list (string * json)) (acc : gmap string value)
             : M (gmap string value) :=
             match kvs with
             | [] => mret acc
             | (k, x) :: kvs' => v ← load x; load_members kvs' (<[k := v]> acc)
             end) kvs ∅;
      alloc (ODict d)
  end.

(** ** parsers/MN.py *)

Definition NDC_GENERATION : string := "https://disnews.energy.mn/test/convert.php".
Definition TZ : tzinfo := timezone "Asia/Ulaanbaatar".

(** Query fields to web API fields, in the order the source lists them. *)
Definition JSON_QUERY_TO_SRC : list (string * string) :=
  [ ("time", "date");
    ("consumptionMW", "syssum");
    ("solarMW", "sumnar");
    ("windMW", "sums");
    ("importMW", "energyimport");
    ("temperatureC", "t") ].

Section MN.

(** The two library calls whose inside is not part of this program:
    [json.loads(text)] up to the allocation of its result, and
    [arrow.get(x, fmt, tzinfo=tz).datetime]. *)
Variable json_loads : string -> result json.
Variable arrow_get : value -> string -> tzinfo -> result datetime.

Definition parse_json (web_json : value) : M value :=
  (* Validate first if keys in fetched dict match expected keys *)
  keys ← dict_keys web_json;
  if bool_decide (list_to_set (JSON_QUERY_TO_SRC.*2) ≠ keys) then
    raise (ParserException "MN.py" (MsgKeysMismatch keys (JSON_QUERY_TO_SRC.*2)))
  else
    vals ← dict_values web_json;
    if existsb is_None vals then
      d ← dict_of web_json;
      raise (ParserException "MN.py" (MsgNull d))
    else
      (* Then we can safely parse them *)
      query_data ← alloc (ODict ∅);
      _ ← for_each JSON_QUERY_TO_SRC (fun '(query_key, src_key) =>
             if String.eqb query_key "time" then
               (* convert to datetime *)
               x ← getitem web_json src_key;
               parsed_time ← lift (arrow_get x "YYYY-MM-DD HH:mm:ss" TZ);
               setitem query_data query_key (VDatetime parsed_time)
             else
               (* or convert to float, might also be string *)
               x ← getitem web_json src_key;
               f ← lift (py_float x);
               setitem query_data query_key (VFloat f));
      mret query_data.

Definition query (session : Session) : M value :=
  target_response ← session_get session NDC_GENERATION;
  if negb (ok target_response) then
    raise (ParserException "MN.py" (MsgRequestFailed (status_code target_response)))
  else
    (* Read as JSON *)
    _ ← emit (EvJsonLoads (text target_response));
    j ← lift (json_loads (text target_response));
    response_json ← load j;
    query_result ← parse_json response_json;
    mret query_result.

Definition fetch_production (zone_key : string) (session : Session)
    (target_datetime : option datetime) (logger : Logger) : M value :=
  if truthy target_datetime then
    raise (NotImplementedError "This parser is not yet able to parse past dates.")
  else
    query_data ← query session;
    (* Calculated 'unknown' production from available data *)
    c ← getitem query_data "consumptionMW";
    i ← getitem query_data "importMW";
    r1 ← lift (py_sub c i);
    s ← getitem query_data "solarMW";
    r2 ← lift (py_sub r1 s);
    w ← getitem query_data "windMW";
    r3 ← lift (py_sub r2 w);
    u ← lift (py_round r3 2);
    _ ← setitem query_data "unknownMW" u;
    unknown ← getitem query_data "unknownMW";
    solar ← getitem query_data "solarMW";
    wind ← getitem query_data "windMW";
    dataset_production ←
      alloc (ODict (<["unknown" := unknown]>
                   (<["solar" := solar]> (<["wind" := wind]> ∅))));
    time ← getitem query_data "time";
    data ←
      alloc (ODict (<["zoneKey" := VStr zone_key]>
                   (<["datetime" := time]>
                   (<["production" := dataset_production]>
                   (<["source" := VStr "https://ndc.energy.mn/"]> ∅)))));
    mret data.

Definition fetch_consumption (zone_key : string) (session : Session)
    (target_datetime : option datetime) (logger : Logger) : M value :=
  if truthy target_datetime then
    raise (NotImplementedError "This parser is not yet able to parse past dates.")
  else
    query_data ← query session;
    time ← getitem query_data "time";
    consumption ← getitem query_data "consumptionMW";
    data ←
      alloc (ODict (<["zoneKey" := VStr zone_key]>
                   (<["datetime" := time]>
                   (<["consumption" := consumption]>
                   (<["source" := VStr "https://ndc.energy.mn/"]> ∅)))));
    mret data.

End MN.

(** ** A reference instance of the two library calls, for running examples *)

Module Demo.

(** The reading of the docstring of [parse_json], as decoded. *)
Definition reading (syssum : json) : json :=
  JObj [ ("date", JStr "2023-06-27 18:00:00");
         ("syssum", syssum);
         ("sumnar", JFloat (PyFloat.of_decimal false 4234 (-2)));
         ("sums", JFloat (PyFloat.of_decimal false 11979 (-2)));
         ("energyimport", JStr "49.58");
         ("t", JStr "17") ].

(** A decoder that knows three bodies and rejects every other text. *)
Definition json_loads (text : string) : result json :=
  if String.eqb text "reading" then Ok (reading (JStr "869.37"))
  else if String.eqb text "reading with syssum abc" then Ok (reading (JStr "abc"))
  else if String.eqb text "[]" then Ok (JArr [])
  else Raise (LibraryError "JSONDecodeError").

Definition two_digits (a b : ascii) : option Z :=
  match PyFloat.digit_of a, PyFloat.digit_of b with
  | Some x, Some y => Some (10 * x + y)
  | _, _ => None
  end.

(** Exactly [YYYY-MM-DD HH:mm:ss], fields in range. *)
Definition strict_datetime (s : string) (zone : tzinfo) : option datetime :=
  match list_ascii_of_string s with
  | [y1; y2; y3; y4; "-"; m1; m2; "-"; d1; d2; " "; h1; h2; ":"; n1; n2; ":"; s1; s2]%char =>
      match two_digits y1 y2, two_digits y3 y4, two_digits m1 m2,
            two_digits d1 d2, two_digits h1 h2, two_digits n1 n2,
            two_digits s1 s2 with
      | Some yh, Some yl, Some mo, Some dd, Some hh, Some mi, Some ss =>
          if (1 <=? mo) && (mo <=? 12) && (1 <=? dd) && (dd <=? 31)
             && (hh <? 24) && (mi <? 60) && (ss <? 60)
          then Some (mk_datetime (100 * yh + yl) mo dd hh mi ss 0 (Some zone))
          else None
      | _, _, _, _, _, _, _ => None
      end
  | _ => None
  end.

Definition arrow_get (x : value) (fmt : string) (zone : tzinfo) : result datetime :=
  match x with
  | VStr s =>
      if String.eqb fmt "YYYY-MM-DD HH:mm:ss" then
        match strict_datetime s zone with
        | Some d => Ok d
        | None => Raise (LibraryError "ParserMatchError")
        end
      else Raise (LibraryError "ParserError")
  | _ => Raise TypeError
  end.

(** A session whose endpoint answers with the given status and body. *)
Definition serving (status : Z) (body : string) : Session :=
  fun _ => Ok (mk_Response status body).

Definition st0 : state := mk_state ∅ [].

(** The same reading as a dict, with a chosen [syssum]. *)
Definition payload (syssum : value) : gmap string value :=
  <["date" := VStr "2023-06-27 18:00:00"]>
  (<["syssum" := syssum]>
  (<["sumnar" := VFloat (PyFloat.of_decimal false 4234 (-2))]>
  (<["sums" := VFloat (PyFloat.of_decimal false 11979 (-2))]>
  (<["energyimport" := VStr "49.58"]>
  (<["t" := VStr "17"]> ∅))))).

(** A heap with one dict, at address 1. *)
Definition holding (d : gmap string value) : state :=
  mk_state {[ 1%positive := ODict d ]} [].

End Demo.

(** ** What the claims are stated with *)

(** [set(JSON_QUERY_TO_SRC.values())] *)
Definition expected_keys : gset string := list_to_set (JSON_QUERY_TO_SRC.*2).

(** No value of the dict is [None]. *)
Definition no_null (d : gmap string value) : Prop :=
  forall k, d !! k <> Some VNone.

(** The error kinds of the specification. The source raises one class,
    [ParserException], for the first two and tells them apart by message. *)
Definition SchemaError (e : exn) : Prop :=
  match e with
  | ParserException "MN.py" (MsgKeysMismatch _ _ | MsgNull _) => True
  | _ => False
  end.

Definition FetchError (e : exn) : Prop :=
  match e with
  | ParserException "MN.py" (MsgRequestFailed _) => True
  | _ => False
  end.

Definition UnsupportedError (e : exn) : Prop :=
  match e with
  | NotImplementedError _ => True
  | _ => False
  end.

(** The [query_data] that [parse_json] returns. *)
Definition reading (time : datetime) (consumptionMW solarMW windMW importMW
    temperatureC : PyFloat.float) : gmap string value :=
  <["temperatureC" := VFloat temperatureC]>
  (<["importMW" := VFloat importMW]>
  (<["windMW" := VFloat windMW]>
  (<["solarMW" := VFloat solarMW]>
  (<["consumptionMW" := VFloat consumptionMW]>
  (<["time" := VDatetime time]> ∅))))).

(** Two outcomes of [parse_json] agree: the same exception, or two dicts with
    the same content (each call allocates its own). *)
Definition same_outcome (st1 : state) (r1 : result value)
    (st2 : state) (r2 : result value) : Prop :=
  match r1, r2 with
  | Raise e1, Raise e2 => e1 = e2
  | Ok (VRef q1), Ok (VRef q2) =>
      exists qd, heap st1 !! q1 = Some (ODict qd) /\ heap st2 !! q2 = Some (ODict qd)
  | _, _ => False
  end.

(** The two dicts that [fetch_production] builds, and the one of
    [fetch_consumption]. *)
Definition production_mix (unknown solar wind : PyFloat.float)
  : gmap string value :=
  <["unknown" := VFloat unknown]>
  (<["solar" := VFloat solar]>
  (<["wind" := VFloat wind]> ∅)).

Definition production_record (zone_key : string) (time : datetime)
    (production : value) : gmap string value :=
  <["zoneKey" := VStr zone_key]>
  (<["datetime" := VDatetime time]>
  (<["production" := production]>
  (<["source" := VStr "https://ndc.energy.mn/"]> ∅))).

Definition consumption_record (zone_key : string) (time : datetime)
    (consumption : PyFloat.float) : gmap string value :=
  <["zoneKey" := VStr zone_key]>
  (<["datetime" := VDatetime time]>
  (<["consumption" := VFloat consumption]>
  (<["source" := VStr "https://ndc.energy.mn/"]> ∅))).

(** [unknownMW], as [fetch_production] computes it from a reading. *)
Definition unknownMW (consumptionMW importMW solarMW windMW : PyFloat.float)
  : PyFloat.float :=
  PyFloat.round
    (PyFloat.sub (PyFloat.sub (PyFloat.sub consumptionMW importMW) solarMW) windMW)
    2.

Section Conversion.

Variable arrow_get : value -> string -> tzinfo -> result datetime.

(** One turn of the loop of [parse_json], on the value read. *)
Definition convert (query_key : string) (x : value) : result value :=
  if String.eqb query_key "time" then
    match arrow_get x "YYYY-MM-DD HH:mm:ss" TZ with
    | Ok t => Ok (VDatetime t)
    | Raise e => Raise e
    end
  else
    match py_float x with
    | Ok f => Ok (VFloat f)
    | Raise e => Raise e
    end.

(** The loop of [parse_json] as a function of the two dicts alone: how it
    ends, and the [query_data] it leaves. *)
Fixpoint fill (d : gmap string value) (fields : list (string * string))
    (query_data : gmap string value) : result unit * gmap string value :=
  match fields with
  | [] => (Ok tt, query_data)
  | (query_key, src_key) :: rest =>
      match d !! src_key with
      | None => (Raise (KeyError src_key), query_data)
      | Some x =>
          match convert query_key x with
          | Ok v => fill d rest (<[query_key := v]> query_data)
          | Raise e => (Raise e, query_data)
          end
      end
  end.

End Conversion.

(** ** Induction on decoded documents *)

Section JsonInduction.

Variable P : json -> Prop.
Hypothesis HNull : P JNull.
Hypothesis HBool : forall b, P (JBool b).
Hypothesis HInt : forall n, P (JInt n).
Hypothesis HFloat : forall f, P (JFloat f).
Hypothesis HStr : forall s, P (JStr s).
Hypothesis HArr : forall xs, Forall P xs -> P (JArr xs).
Hypothesis HObj : forall kvs, Forall (fun kv => P (snd kv)) kvs -> P (JObj kvs).

(** The members of a container are covered by the hypothesis as well. *)
Fixpoint json_induction (j : json) : P j :=
  match j with
  | JNull => HNull
  | JBool b => HBool b
  | JInt n => HInt n
  | JFloat f => HFloat f
  | JStr s => HStr s
  | JArr xs =>
      HArr xs
        ((fix members (xs : list json) : Forall P xs :=
            match xs with
            | [] => List.Forall_nil P
            | x :: xs' => @List.Forall_cons _ P x xs' (json_induction x) (members xs')
            end) xs)
  | JObj kvs =>
      HObj kvs
        ((fix members (kvs : list (string * json))
            : Forall (fun kv => P (snd kv)) kvs :=
            match kvs with
            | [] => List.Forall_nil _
            | kv :: kvs' =>
                @List.Forall_cons _ (fun kv => P (snd kv)) kv kvs'
                  (json_induction (snd kv)) (members kvs')
            end) kvs)
  end.

End JsonInduction.

(** ** What the further properties are stated with *)

(** From [st] to [st'] nothing observable happened and no object that
    existed was touched: at most, new objects were allocated. *)
Definition only_allocates (st st' : state) : Prop :=
  trace st' = trace st /\
  forall l o, heap st !! l = Some o -> heap st' !! l = Some o.

(** As [only_allocates], for the heap alone. *)
Definition keeps_objects (st st' : state) : Prop :=
  forall l o, heap st !! l = Some o -> heap st' !! l = Some o.

(** The Python object [v] that stands for the document [j] in [st]. *)
Definition loaded (j : json) (v : value) (st : state) : Prop :=
  match j with
  | JNull => v = VNone
  | JBool b => v = VBool b
  | JInt n => v = VInt n
  | JFloat f => v = VFloat f
  | JStr s => v = VStr s
  | JArr _ => exists l xs, v = VRef l /\ heap st !! l = Some (OList xs)
  | JObj _ => exists l d, v = VRef l /\ heap st !! l = Some (ODict d)
  end.

(** [w] is not a dict: an immediate value, or a reference to a list. *)
Definition holds_no_dict (w : value) (st : state) : Prop :=
  match w with
  | VRef l => exists xs, heap st !! l = Some (OList xs)
  | _ => True
  end.

Definition is_object (j : json) : bool :=
  match j with
  | JObj _ => true
  | _ => false
  end.

Definition is_nan (x : PyFloat.float) : bool :=
  match x with
  | S754_nan => true
  | _ => false
  end.

(** Further bodies for the reference decoder of [Demo]. *)
Module Sample.

Definition json_loads (text : string) : result json :=
  if String.eqb text "a list" then Ok (JArr [JInt 1; JNull])
  else if String.eqb text "a number" then Ok (JInt 42)
  else if String.eqb text "syssum nan" then Ok (Demo.reading (JStr "nan"))
  else if String.eqb text "date 27.06.2023, syssum abc" then
    Ok (JObj [ ("date", JStr "27.06.2023"); ("syssum", JStr "abc");
               ("sumnar", JInt 1); ("sums", JInt 2);
               ("energyimport", JInt 3); ("t", JInt 4) ])
  else Demo.json_loads text.

(** A session that cannot reach the endpoint. *)
Definition unreachable : Session :=
  fun _ => Raise (LibraryError "ConnectionError").

End Sample.

(** ** Running the monad *)

Lemma run_bind {A B} (m : M A) (k : A -> M B) (st : state) :
  (m ≫= k) st =
  match m st with
  | (Ok a, st') => k a st'
  | (Raise e, st') => (Raise e, st')
  end.
Proof. reflexivity. Qed.

Lemma run_ret {A} (a : A) (st : state) : (mret a : M A) st = (Ok a, st).
Proof. reflexivity. Qed.

Lemma run_lift {A} (r : result A) (st : state) :
  lift r st = match r with Ok a => (Ok a, st) | Raise e => (Raise e, st) end.
Proof. destruct r; reflexivity. Qed.

Lemma run_dict_of (l : loc) (d : gmap string value) (st : state) :
  heap st !! l = Some (ODict d) -> dict_of (VRef l) st = (Ok d, st).
Proof. intros H. unfold dict_of. rewrite H. reflexivity. Qed.

Lemma run_getitem (l : loc) (d : gmap string value) (key : string) (st : state) :
  heap st !! l = Some (ODict d) ->
  getitem (VRef l) key st =
  match d !! key with
  | Some x => (Ok x, st)
  | None => (Raise (KeyError key), st)
  end.
Proof. intros H. unfold getitem. rewrite H. reflexivity. Qed.

Lemma run_setitem (l : loc) (d : gmap string value) (key : string) (x : value)
    (st : state) :
  heap st !! l = Some (ODict d) ->
  setitem (VRef l) key x st =
  (Ok tt, mk_state (<[l := ODict (<[key := x]> d)]> (heap st)) (trace st)).
Proof. intros H. unfold setitem. rewrite H. reflexivity. Qed.

Lemma fresh_loc_unused (h : gmap loc object) : h !! fresh (dom h) = None.
Proof. apply not_elem_of_dom. apply is_fresh. Qed.

Lemma fresh_loc_ne (h : gmap loc object) (l : loc) (o : object) :
  h !! l = Some o -> l <> fresh (dom h).
Proof. intros H ->. rewrite fresh_loc_unused in H. discriminate. Qed.

Section Runs.

Variable json_loads : string -> result json.
Variable arrow_get : value -> string -> tzinfo -> result datetime.

(** The loop of [parse_json] reads the dict at [l], writes the one at [q],
    and ends as [fill] says. *)
Lemma run_loop (h : gmap loc object) (tr : list event) (l q : loc)
    (d : gmap string value) (fields : list (string * string)) :
  l <> q -> h !! l = Some (ODict d) ->
  forall qd : gmap string value,
  for_each fields (fun '(query_key, src_key) =>
      if String.eqb query_key "time" then
        x ← getitem (VRef l) src_key;
        parsed_time ← lift (arrow_get x "YYYY-MM-DD HH:mm:ss" TZ);
        setitem (VRef q) query_key (VDatetime parsed_time)
      else
        x ← getitem (VRef l) src_key;
        f ← lift (py_float x);
        setitem (VRef q) query_key (VFloat f))
    (mk_state (<[q := ODict qd]> h) tr) =
  (fst (fill arrow_get d fields qd),
   mk_state (<[q := ODict (snd (fill arrow_get d fields qd))]> h) tr).
Proof.
  intros Hne Hl. induction fields as [|[query_key src_key] rest IH]; intros qd.
  - reflexivity.
  - cbn [for_each fill]. rewrite run_bind.
    assert (Hl' : heap (mk_state (<[q := ODict qd]> h) tr) !! l = Some (ODict d)).
    { cbn. rewrite lookup_insert_ne by congruence. exact Hl. }
    unfold convert.
    destruct (String.eqb query_key "time").
    + rewrite run_bind, (run_getitem _ _ _ _ Hl').
      destruct (d !! src_key) as [x|]; [|reflexivity].
      rewrite run_bind, run_lift.
      destruct (arrow_get x "YYYY-MM-DD HH:mm:ss" TZ) as [t|e]; [|reflexivity].
      rewrite (run_setitem q qd) by (cbn; apply lookup_insert_eq).
      cbn [heap trace]. rewrite insert_insert_eq. apply IH.
    + rewrite run_bind, (run_getitem _ _ _ _ Hl').
      destruct (d !! src_key) as [x|]; [|reflexivity].
      rewrite run_bind, run_lift.
      destruct (py_float x) as [f|e]; [|reflexivity].
      rewrite (run_setitem q qd) by (cbn; apply lookup_insert_eq).
      cbn [heap trace]. rewrite insert_insert_eq. apply IH.
Qed.

(** [parse_json] on a dict: the two checks, then the loop on a new dict. *)
Lemma run_parse_json (st : state) (l : loc) (d : gmap string value) :
  heap st !! l = Some (ODict d) ->
  parse_json arrow_get (VRef l) st =
  if bool_decide (expected_keys <> dom d) then
    (Raise (ParserException "MN.py" (MsgKeysMismatch (dom d) (JSON_QUERY_TO_SRC.*2))), st)
  else if existsb is_None ((map_to_list d).*2) then
    (Raise (ParserException "MN.py" (MsgNull d)), st)
  else
    let q := fresh (dom (heap st)) in
    let end_ := fill arrow_get d JSON_QUERY_TO_SRC ∅ in
    (match fst end_ with Ok _ => Ok (VRef q) | Raise e => Raise e end,
     mk_state (<[q := ODict (snd end_)]> (heap st)) (trace st)).
Proof.
  intros Hl. unfold parse_json, dict_keys, dict_values.
  rewrite !run_bind, (run_dict_of _ _ _ Hl), run_ret.
  fold expected_keys.
  destruct (bool_decide (expected_keys <> dom d)); [reflexivity|].
  rewrite !run_bind, (run_dict_of _ _ _ Hl), run_ret.
  destruct (existsb is_None ((map_to_list d).*2)).
  { rewrite run_bind, (run_dict_of _ _ _ Hl). reflexivity. }
  rewrite run_bind. unfold alloc at 1. cbv zeta.
  rewrite run_bind.
  rewrite (run_loop (heap st) (trace st) l (fresh (dom (heap st))) d JSON_QUERY_TO_SRC
             (fresh_loc_ne _ _ _ Hl) Hl ∅).
  destruct (fst (fill arrow_get d JSON_QUERY_TO_SRC ∅)) as [[]|e]; reflexivity.
Qed.

(** Whatever [parse_json] is given, the objects that were on the heap
    stay as they were. *)
Lemma parse_json_frame (w : value) (st st' : state) (r : result value) :
  parse_json arrow_get w st = (r, st') ->
  forall l o, heap st !! l = Some o -> heap st' !! l = Some o.
Proof.
  intros Hrun l o Ho.
  assert (Hstuck : forall e, parse_json arrow_get w st = (Raise e, st) ->
                   heap st' !! l = Some o).
  { intros e He. rewrite He in Hrun. injection Hrun as _ <-. exact Ho. }
  destruct w as [| | | | | |l0]; try (apply (Hstuck AttributeError); reflexivity).
  destruct (heap st !! l0) as [[d|xs]|] eqn:Hl0.
  - rewrite (run_parse_json _ _ _ Hl0) in Hrun.
    destruct (bool_decide (expected_keys <> dom d)).
    { injection Hrun as _ <-. exact Ho. }
    destruct (existsb is_None ((map_to_list d).*2)).
    { injection Hrun as _ <-. exact Ho. }
    cbv zeta in Hrun. injection Hrun as _ <-. cbn.
    rewrite lookup_insert_ne; [exact Ho|].
    apply not_eq_sym, (fresh_loc_ne _ _ _ Ho).
  - apply (Hstuck AttributeError).
    unfold parse_json, dict_keys. rewrite !run_bind. unfold dict_of.
    rewrite Hl0. reflexivity.
  - apply (Hstuck SystemError).
    unfold parse_json, dict_keys. rewrite !run_bind. unfold dict_of.
    rewrite Hl0. reflexivity.
Qed.

End Runs.

Lemma has_null_true (d : gmap string value) :
  existsb is_None ((map_to_list d).*2) = true <-> exists k, d !! k = Some VNone.
Proof.
  rewrite existsb_exists. split.
  - intros (x & Hin & Hx). destruct x; try discriminate.
    apply list_elem_of_In, list_elem_of_fmap in Hin as ([k v] & Hv & Hkv).
    cbn in Hv. subst v. exists k. by apply elem_of_map_to_list.
  - intros (k & Hk). exists VNone. split; [|reflexivity].
    apply list_elem_of_In, list_elem_of_fmap. exists (k, VNone). split; [reflexivity|].
    by apply elem_of_map_to_list.
Qed.

Lemma has_null_false (d : gmap string value) :
  no_null d -> existsb is_None ((map_to_list d).*2) = false.
Proof.
  intros Hd. destruct (existsb is_None ((map_to_list d).*2)) eqn:E; [|reflexivity].
  apply has_null_true in E as (k & Hk). destruct (Hd k Hk).
Qed.

Lemma keys_checked (d : gmap string value) :
  dom d = expected_keys -> bool_decide (expected_keys <> dom d) = false.
Proof. intros ->. apply bool_decide_eq_false. intros H. by apply H. Qed.

Lemma keys_refused (d : gmap string value) :
  dom d <> expected_keys -> bool_decide (expected_keys <> dom d) = true.
Proof. intros H. apply bool_decide_eq_true. congruence. Qed.

Lemma no_null_intro (d : gmap string value) :
  existsb is_None ((map_to_list d).*2) = false -> no_null d.
Proof.
  intros E k Hk.
  assert (H : existsb is_None ((map_to_list d).*2) = true)
    by (apply has_null_true; eauto).
  congruence.
Qed.

(** ** parse_json *)

Lemma strict_datetime_zone (s : string) (zone : tzinfo) (d : datetime) :
  Demo.strict_datetime s zone = Some d -> tz d = Some zone.
Proof.
  unfold Demo.strict_datetime.
  repeat match goal with
         | |- context [match ?x with _ => _ end] =>
             destruct x; try (intros; discriminate)
         end.
  intros [= <-]. reflexivity.
Qed.

(** The reference timestamp parser returns a time in the zone it is given. *)
Lemma demo_arrow_get_zone (x : value) (zone : tzinfo) (t : datetime) :
  Demo.arrow_get x "YYYY-MM-DD HH:mm:ss" zone = Ok t -> tz t = Some zone.
Proof.
  destruct x; try discriminate. cbn.
  destruct (Demo.strict_datetime s zone) as [d|] eqn:E; [|discriminate].
  intros [= <-]. exact (strict_datetime_zone _ _ _ E).
Qed.

(** C2, as amended. A payload with exactly the six expected keys and no
    null, whose date the timestamp parser accepts and whose other five values
    [float()] converts, is parsed: the result is a new dict in which each
    numeric field is the source value cast to float, and [time] is the source
    date parsed with the format [YYYY-MM-DD HH:mm:ss] in the zone
    Asia/Ulaanbaatar; the heap is otherwise unchanged. The stored time is
    zone-aware, in Asia/Ulaanbaatar, given what the timestamp parser promises
    for this format: the time it returns is in the zone it is passed. *)
Theorem parse_json_converts
    (arrow_get : value -> string -> tzinfo -> result datetime)
    (st : state) (l : loc) (d : gmap string value)
    (xd xc xs xw xi xt : value) (t : datetime) (fc fs fw fi ft : PyFloat.float) :
  (forall x zone t', arrow_get x "YYYY-MM-DD HH:mm:ss" zone = Ok t' -> tz t' = Some zone) ->
  heap st !! l = Some (ODict d) ->
  dom d = expected_keys ->
  no_null d ->
  d !! "date" = Some xd -> d !! "syssum" = Some xc -> d !! "sumnar" = Some xs ->
  d !! "sums" = Some xw -> d !! "energyimport" = Some xi -> d !! "t" = Some xt ->
  arrow_get xd "YYYY-MM-DD HH:mm:ss" (timezone "Asia/Ulaanbaatar") = Ok t ->
  py_float xc = Ok fc -> py_float xs = Ok fs -> py_float xw = Ok fw ->
  py_float xi = Ok fi -> py_float xt = Ok ft ->
  parse_json arrow_get (VRef l) st =
    (Ok (VRef (fresh (dom (heap st)))),
     mk_state (<[fresh (dom (heap st)) := ODict (reading t fc fs fw fi ft)]> (heap st))
              (trace st))
  /\ reading t fc fs fw fi ft !! "time" = Some (VDatetime t)
  /\ tz t = Some (timezone "Asia/Ulaanbaatar").
Proof.
  intros Hzone Hl Hkeys Hnull Hd Hc Hs Hw Hi Ht Ed Ec Es Ew Ei Et.
  split; [|split; [reflexivity|exact (Hzone _ _ _ Ed)]].
  rewrite (run_parse_json _ _ _ _ Hl), (keys_checked _ Hkeys), (has_null_false _ Hnull).
  cbv zeta. cbn [fill JSON_QUERY_TO_SRC].
  rewrite Hd, Hc, Hs, Hw, Hi, Ht. unfold convert. cbn [String.eqb Ascii.eqb Bool.eqb].
  unfold TZ. rewrite Ed, Ec, Es, Ew, Ei, Et. reflexivity.
Qed.

Lemma parse_json_converts_witness :
  parse_json Demo.arrow_get (VRef 1%positive)
    (Demo.holding (Demo.payload (VStr "869.37"))) =
  (Ok (VRef 2%positive),
   mk_state
     (<[2%positive :=
          ODict (reading (mk_datetime 2023 6 27 18 0 0 0 (Some TZ))
                   (PyFloat.of_decimal false 86937 (-2))
                   (PyFloat.of_decimal false 4234 (-2))
                   (PyFloat.of_decimal false 11979 (-2))
                   (PyFloat.of_decimal false 4958 (-2))
                   (PyFloat.of_decimal false 17 0))]>
        {[ 1%positive := ODict (Demo.payload (VStr "869.37")) ]})
     [])
  /\ reading (mk_datetime 2023 6 27 18 0 0 0 (Some TZ))
       (PyFloat.of_decimal false 86937 (-2))
       (PyFloat.of_decimal false 4234 (-2))
       (PyFloat.of_decimal false 11979 (-2))
       (PyFloat.of_decimal false 4958 (-2))
       (PyFloat.of_decimal false 17 0) !! "time"
     = Some (VDatetime (mk_datetime 2023 6 27 18 0 0 0 (Some TZ)))
  /\ tz (mk_datetime 2023 6 27 18 0 0 0 (Some TZ)) = Some (timezone "Asia/Ulaanbaatar").
Proof.
  apply (parse_json_converts Demo.arrow_get
           (Demo.holding (Demo.payload (VStr "869.37"))) 1%positive
           (Demo.payload (VStr "869.37"))
           (VStr "2023-06-27 18:00:00") (VStr "869.37")
           (VFloat (PyFloat.of_decimal false 4234 (-2)))
           (VFloat (PyFloat.of_decimal false 11979 (-2)))
           (VStr "49.58") (VStr "17")).
  - exact demo_arrow_get_zone.
  - reflexivity.
  - vm_compute. reflexivity.
  - apply no_null_intro. vm_compute. reflexivity.
  - reflexivity.
  - reflexivity.
  - reflexivity.
  - reflexivity.
  - reflexivity.
  - reflexivity.
  - vm_compute. reflexivity.
  - vm_compute. reflexivity.
  - reflexivity.
  - reflexivity.
  - vm_compute. reflexivity.
  - vm_compute. reflexivity.
Defined.

(** After both checks have passed and the date has been parsed, a [syssum]
    that [float()] rejects ends the call with the error of [float()]. *)
Lemma parse_json_float_error
    (arrow_get : value -> string -> tzinfo -> result datetime)
    (st : state) (l : loc) (d : gmap string value)
    (xd xc : value) (t : datetime) (e : exn) :
  heap st !! l = Some (ODict d) ->
  dom d = expected_keys ->
  no_null d ->
  d !! "date" = Some xd -> d !! "syssum" = Some xc ->
  arrow_get xd "YYYY-MM-DD HH:mm:ss" TZ = Ok t ->
  py_float xc = Raise e ->
  fst (parse_json arrow_get (VRef l) st) = Raise e.
Proof.
  intros Hl Hkeys Hnull Hd Hc Ed Ec.
  rewrite (run_parse_json _ _ _ _ Hl), (keys_checked _ Hkeys), (has_null_false _ Hnull).
  cbv zeta. cbn [fill JSON_QUERY_TO_SRC].
  rewrite Hd, Hc. unfold convert. cbn [String.eqb Ascii.eqb Bool.eqb].
  rewrite Ed, Ec. reflexivity.
Qed.

Lemma payload_keys (x : value) : dom (Demo.payload x) = expected_keys.
Proof. vm_compute. reflexivity. Qed.

Lemma payload_no_null (x : value) : x <> VNone -> no_null (Demo.payload x).
Proof.
  intros Hx k. unfold Demo.payload.
  rewrite !lookup_insert, lookup_empty.
  repeat case_decide; congruence.
Qed.

(** C2, counterexample. The reading of the docstring with [syssum] set to
    the string abc has exactly the six keys and no null, and [parse_json]
    does not succeed on it, whatever the timestamp parser does. *)
Lemma parse_json_valid_shape_fails :
  heap (Demo.holding (Demo.payload (VStr "abc"))) !! 1%positive
    = Some (ODict (Demo.payload (VStr "abc"))) /\
  dom (Demo.payload (VStr "abc")) = expected_keys /\
  no_null (Demo.payload (VStr "abc")) /\
  forall (arrow_get : value -> string -> tzinfo -> result datetime) (v : value),
    fst (parse_json arrow_get (VRef 1%positive)
           (Demo.holding (Demo.payload (VStr "abc")))) <> Ok v.
Proof.
  split; [reflexivity|]. split; [apply payload_keys|].
  split; [apply payload_no_null; discriminate|].
  intros arrow_get v.
  destruct (arrow_get (VStr "2023-06-27 18:00:00") "YYYY-MM-DD HH:mm:ss" TZ)
    as [t|e] eqn:Ed.
  - rewrite (parse_json_float_error arrow_get
               (Demo.holding (Demo.payload (VStr "abc"))) 1%positive
               (Demo.payload (VStr "abc"))
               (VStr "2023-06-27 18:00:00") (VStr "abc") t ValueError
               eq_refl (payload_keys _) (payload_no_null (VStr "abc") ltac:(discriminate))
               eq_refl eq_refl Ed eq_refl).
    discriminate.
  - rewrite (run_parse_json _ _ 1%positive (Demo.payload (VStr "abc"))) by reflexivity.
    rewrite (keys_checked _ (payload_keys _)).
    rewrite (has_null_false _ (payload_no_null (VStr "abc") ltac:(discriminate))).
    cbv zeta. cbn [fill JSON_QUERY_TO_SRC].
    change (Demo.payload (VStr "abc") !! "date") with (Some (VStr "2023-06-27 18:00:00")).
    unfold convert. cbn [String.eqb Ascii.eqb Bool.eqb]. rewrite Ed. discriminate.
Qed.

(** C3. A payload whose key set is not exactly the expected one (a key is
    missing, or there is one too many) makes [parse_json] raise the
    key-mismatch [ParserException], a SchemaError, and leaves the state as it
    was. *)
Theorem parse_json_wrong_keys
    (arrow_get : value -> string -> tzinfo -> result datetime)
    (st : state) (l : loc) (d : gmap string value) :
  heap st !! l = Some (ODict d) ->
  dom d <> expected_keys ->
  parse_json arrow_get (VRef l) st =
    (Raise (ParserException "MN.py" (MsgKeysMismatch (dom d) (JSON_QUERY_TO_SRC.*2))), st)
  /\ SchemaError (ParserException "MN.py" (MsgKeysMismatch (dom d) (JSON_QUERY_TO_SRC.*2))).
Proof.
  intros Hl Hkeys. split; [|exact I].
  rewrite (run_parse_json _ _ _ _ Hl), (keys_refused _ Hkeys). reflexivity.
Qed.

Lemma parse_json_wrong_keys_witness :
  (* a key is missing *)
  (parse_json Demo.arrow_get (VRef 1%positive)
     (Demo.holding (delete "t" (Demo.payload (VStr "869.37")))) =
   (Raise (ParserException "MN.py"
             (MsgKeysMismatch (dom (delete "t" (Demo.payload (VStr "869.37"))))
                (JSON_QUERY_TO_SRC.*2))),
    Demo.holding (delete "t" (Demo.payload (VStr "869.37"))))
   /\ SchemaError
        (ParserException "MN.py"
           (MsgKeysMismatch (dom (delete "t" (Demo.payload (VStr "869.37"))))
              (JSON_QUERY_TO_SRC.*2))))
  /\
  (* a key too many *)
  (parse_json Demo.arrow_get (VRef 1%positive)
     (Demo.holding (<["extra" := VInt 1]> (Demo.payload (VStr "869.37")))) =
   (Raise (ParserException "MN.py"
             (MsgKeysMismatch (dom (<["extra" := VInt 1]> (Demo.payload (VStr "869.37"))))
                (JSON_QUERY_TO_SRC.*2))),
    Demo.holding (<["extra" := VInt 1]> (Demo.payload (VStr "869.37"))))
   /\ SchemaError
        (ParserException "MN.py"
           (MsgKeysMismatch (dom (<["extra" := VInt 1]> (Demo.payload (VStr "869.37"))))
              (JSON_QUERY_TO_SRC.*2)))).
Proof.
  split.
  - apply (parse_json_wrong_keys Demo.arrow_get
             (Demo.holding (delete "t" (Demo.payload (VStr "869.37")))) 1%positive).
    + reflexivity.
    + apply (bool_decide_eq_false_1 _). vm_compute. reflexivity.
  - apply (parse_json_wrong_keys Demo.arrow_get
             (Demo.holding (<["extra" := VInt 1]> (Demo.payload (VStr "869.37")))) 1%positive).
    + reflexivity.
    + apply (bool_decide_eq_false_1 _). vm_compute. reflexivity.
Defined.

(** C4. A payload that holds a null makes [parse_json] raise a SchemaError
    and leaves the state as it was. The keys are checked first: with the
    expected key set the error is the one about the null, with any other key
    set it is the one about the keys. *)
Theorem parse_json_null
    (arrow_get : value -> string -> tzinfo -> result datetime)
    (st : state) (l : loc) (d : gmap string value) (k : string) :
  heap st !! l = Some (ODict d) ->
  d !! k = Some VNone ->
  parse_json arrow_get (VRef l) st =
    (Raise (ParserException "MN.py"
              (if bool_decide (dom d = expected_keys) then MsgNull d
               else MsgKeysMismatch (dom d) (JSON_QUERY_TO_SRC.*2))), st)
  /\ SchemaError
       (ParserException "MN.py"
          (if bool_decide (dom d = expected_keys) then MsgNull d
           else MsgKeysMismatch (dom d) (JSON_QUERY_TO_SRC.*2))).
Proof.
  intros Hl Hk. rewrite (run_parse_json _ _ _ _ Hl).
  destruct (decide (dom d = expected_keys)) as [Hkeys|Hkeys].
  - rewrite (keys_checked _ Hkeys), (bool_decide_eq_true_2 _ Hkeys).
    assert (E : existsb is_None ((map_to_list d).*2) = true)
      by (apply has_null_true; eauto).
    rewrite E. split; [reflexivity|exact I].
  - rewrite (keys_refused _ Hkeys), (bool_decide_eq_false_2 _ Hkeys).
    split; [reflexivity|exact I].
Qed.

Lemma parse_json_null_witness :
  (* a null under the expected keys *)
  (parse_json Demo.arrow_get (VRef 1%positive) (Demo.holding (Demo.payload VNone)) =
   (Raise (ParserException "MN.py" (MsgNull (Demo.payload VNone))),
    Demo.holding (Demo.payload VNone))
   /\ SchemaError (ParserException "MN.py" (MsgNull (Demo.payload VNone))))
  /\
  (* a null and a missing key *)
  (parse_json Demo.arrow_get (VRef 1%positive)
     (Demo.holding (delete "t" (Demo.payload VNone))) =
   (Raise (ParserException "MN.py"
             (MsgKeysMismatch (dom (delete "t" (Demo.payload VNone)))
                (JSON_QUERY_TO_SRC.*2))),
    Demo.holding (delete "t" (Demo.payload VNone)))
   /\ SchemaError
        (ParserException "MN.py"
           (MsgKeysMismatch (dom (delete "t" (Demo.payload VNone)))
              (JSON_QUERY_TO_SRC.*2)))).
Proof.
  split.
  - apply (parse_json_null Demo.arrow_get (Demo.holding (Demo.payload VNone))
             1%positive (Demo.payload VNone) "syssum").
    + reflexivity.
    + reflexivity.
  - assert (E : bool_decide (dom (delete "t" (Demo.payload VNone)) = expected_keys)
                = false) by (vm_compute; reflexivity).
    pose proof (parse_json_null Demo.arrow_get
                  (Demo.holding (delete "t" (Demo.payload VNone)))
                  1%positive (delete "t" (Demo.payload VNone)) "syssum"
                  eq_refl eq_refl) as H.
    rewrite E in H. exact H.
Defined.

(** On a dict, the outcome of [parse_json] is decided by the content of the
    dict: two runs from states that hold the same content agree. *)
Lemma parse_json_same_content
    (arrow_get : value -> string -> tzinfo -> result datetime)
    (st1 st2 : state) (l : loc) (d : gmap string value) :
  heap st1 !! l = Some (ODict d) ->
  heap st2 !! l = Some (ODict d) ->
  same_outcome
    (snd (parse_json arrow_get (VRef l) st1)) (fst (parse_json arrow_get (VRef l) st1))
    (snd (parse_json arrow_get (VRef l) st2)) (fst (parse_json arrow_get (VRef l) st2)).
Proof.
  intros H1 H2.
  rewrite (run_parse_json _ _ _ _ H1), (run_parse_json _ _ _ _ H2).
  destruct (bool_decide (expected_keys <> dom d)); [reflexivity|].
  destruct (existsb is_None ((map_to_list d).*2)); [reflexivity|].
  cbv zeta. cbn [fst snd].
  destruct (fst (fill arrow_get d JSON_QUERY_TO_SRC ∅)) as [[]|e]; [|reflexivity].
  cbn. exists (snd (fill arrow_get d JSON_QUERY_TO_SRC ∅)).
  by rewrite !lookup_insert_eq.
Qed.

Lemma dict_or_not (w : value) (st : state) :
  (exists l d, w = VRef l /\ heap st !! l = Some (ODict d))
  \/ (forall l d, w = VRef l -> heap st !! l <> Some (ODict d)).
Proof.
  destruct w as [| | | | | |l]; try (right; intros; discriminate).
  destruct (heap st !! l) as [[d|xs]|] eqn:Hl.
  - left. eauto.
  - right. intros l' d [= <-]. congruence.
  - right. intros l' d [= <-]. congruence.
Qed.

(** On anything that is not a dict, [parse_json] raises at its first line. *)
Lemma parse_json_not_a_dict
    (arrow_get : value -> string -> tzinfo -> result datetime)
    (w : value) (st : state) :
  (forall l d, w = VRef l -> heap st !! l <> Some (ODict d)) ->
  exists e, parse_json arrow_get w st = (Raise e, st)
            /\ (e = AttributeError \/ e = SystemError).
Proof.
  intros Hw. unfold parse_json, dict_keys. rewrite !run_bind. unfold dict_of.
  destruct w as [| | | | | |l]; try (exists AttributeError; split; [reflexivity|by left]).
  destruct (heap st !! l) as [[d|xs]|] eqn:Hl.
  - destruct (Hw l d eq_refl Hl).
  - exists AttributeError. split; [reflexivity|by left].
  - exists SystemError. split; [reflexivity|by right].
Qed.

(** C8. [parse_json] called twice in a row on the same payload gives the
    same outcome both times: the same exception, or two dicts with the same
    content. Nothing else is read: from any two states that hold the payload
    with the same content the outcomes agree as well. *)
Theorem parse_json_deterministic
    (arrow_get : value -> string -> tzinfo -> result datetime) :
  (forall (w : value) (st : state),
     let first := parse_json arrow_get w st in
     let second := parse_json arrow_get w (snd first) in
     same_outcome (snd first) (fst first) (snd second) (fst second))
  /\
  (forall (l : loc) (d : gmap string value) (st1 st2 : state),
     heap st1 !! l = Some (ODict d) ->
     heap st2 !! l = Some (ODict d) ->
     same_outcome
       (snd (parse_json arrow_get (VRef l) st1)) (fst (parse_json arrow_get (VRef l) st1))
       (snd (parse_json arrow_get (VRef l) st2)) (fst (parse_json arrow_get (VRef l) st2))).
Proof.
  split.
  - intros w st first second.
    destruct (dict_or_not w st) as [(l & d & -> & Hl)|Hw].
    + apply (parse_json_same_content arrow_get st (snd first) l d Hl).
      apply (parse_json_frame arrow_get (VRef l) st (snd first) (fst first));
        [subst first; by destruct (parse_json arrow_get (VRef l) st)|exact Hl].
    + destruct (parse_json_not_a_dict arrow_get w st Hw) as (e & He & _).
      subst second first. rewrite He. cbn [fst snd]. rewrite He. reflexivity.
  - intros l d st1 st2. apply parse_json_same_content.
Qed.

Lemma parse_json_deterministic_witness :
  (* twice in a row, on a payload that is parsed and on one that is refused *)
  (let first := parse_json Demo.arrow_get (VRef 1%positive)
                  (Demo.holding (Demo.payload (VStr "869.37"))) in
   let second := parse_json Demo.arrow_get (VRef 1%positive) (snd first) in
   same_outcome (snd first) (fst first) (snd second) (fst second))
  /\
  (let first := parse_json Demo.arrow_get (VRef 1%positive)
                  (Demo.holding (Demo.payload (VStr "abc"))) in
   let second := parse_json Demo.arrow_get (VRef 1%positive) (snd first) in
   same_outcome (snd first) (fst first) (snd second) (fst second))
  /\
  (* from two states that differ in everything but the payload *)
  (let st1 := Demo.holding (Demo.payload (VStr "869.37")) in
   let st2 := mk_state (<[7%positive := OList [VInt 1]]>
                         {[ 1%positive := ODict (Demo.payload (VStr "869.37")) ]})
                       [EvHttpGet "elsewhere"] in
   same_outcome
     (snd (parse_json Demo.arrow_get (VRef 1%positive) st1))
     (fst (parse_json Demo.arrow_get (VRef 1%positive) st1))
     (snd (parse_json Demo.arrow_get (VRef 1%positive) st2))
     (fst (parse_json Demo.arrow_get (VRef 1%positive) st2))).
Proof.
  destruct (parse_json_deterministic Demo.arrow_get) as [Hseq Hcontent].
  split; [|split].
  - exact (Hseq (VRef 1%positive) (Demo.holding (Demo.payload (VStr "869.37")))).
  - exact (Hseq (VRef 1%positive) (Demo.holding (Demo.payload (VStr "abc")))).
  - apply (Hcontent 1%positive (Demo.payload (VStr "869.37"))).
    + reflexivity.
    + reflexivity.
Defined.

(** C9. [parse_json] does not modify its input: after the call, successful
    or not, the dict it was given holds what it held before, and so does
    every other object that was on the heap. *)
Theorem parse_json_keeps_input
    (arrow_get : value -> string -> tzinfo -> result datetime)
    (st : state) (l : loc) (d : gmap string value) :
  heap st !! l = Some (ODict d) ->
  heap (snd (parse_json arrow_get (VRef l) st)) !! l = Some (ODict d)
  /\ forall l' o, heap st !! l' = Some o ->
                  heap (snd (parse_json arrow_get (VRef l) st)) !! l' = Some o.
Proof.
  intros Hl.
  assert (H : forall l' o, heap st !! l' = Some o ->
                heap (snd (parse_json arrow_get (VRef l) st)) !! l' = Some o).
  { apply (parse_json_frame arrow_get (VRef l) st _
             (fst (parse_json arrow_get (VRef l) st))).
    by destruct (parse_json arrow_get (VRef l) st). }
  split; [apply H; exact Hl|exact H].
Qed.

Lemma parse_json_keeps_input_witness :
  (* a call that succeeds *)
  (heap (snd (parse_json Demo.arrow_get (VRef 1%positive)
                (Demo.holding (Demo.payload (VStr "869.37"))))) !! 1%positive
     = Some (ODict (Demo.payload (VStr "869.37")))
   /\ forall l' o,
        heap (Demo.holding (Demo.payload (VStr "869.37"))) !! l' = Some o ->
        heap (snd (parse_json Demo.arrow_get (VRef 1%positive)
                     (Demo.holding (Demo.payload (VStr "869.37"))))) !! l' = Some o)
  /\
  (* a call that fails in the middle of the loop *)
  (heap (snd (parse_json Demo.arrow_get (VRef 1%positive)
                (Demo.holding (Demo.payload (VStr "abc"))))) !! 1%positive
     = Some (ODict (Demo.payload (VStr "abc")))
   /\ forall l' o,
        heap (Demo.holding (Demo.payload (VStr "abc"))) !! l' = Some o ->
        heap (snd (parse_json Demo.arrow_get (VRef 1%positive)
                     (Demo.holding (Demo.payload (VStr "abc"))))) !! l' = Some o).
Proof.
  split.
  - apply (parse_json_keeps_input Demo.arrow_get
             (Demo.holding (Demo.payload (VStr "869.37"))) 1%positive).
    reflexivity.
  - apply (parse_json_keeps_input Demo.arrow_get
             (Demo.holding (Demo.payload (VStr "abc"))) 1%positive).
    reflexivity.
Defined.

(** C10. There is a payload, the reading of the docstring with [syssum] set
    to the string abc, that has exactly the expected keys and no null and
    on which [parse_json] fails all the same, with the ValueError of
    [float()], which is not a SchemaError: whenever the timestamp parser
    accepts the date, and in particular with the reference parser. *)
Theorem parse_json_conversion_error :
  exists d : gmap string value,
    dom d = expected_keys /\
    no_null d /\
    d !! "syssum" = Some (VStr "abc") /\
    py_float (VStr "abc") = Raise ValueError /\
    ~ SchemaError ValueError /\
    (forall (arrow_get : value -> string -> tzinfo -> result datetime)
            (st : state) (l : loc) (t : datetime),
       heap st !! l = Some (ODict d) ->
       arrow_get (VStr "2023-06-27 18:00:00") "YYYY-MM-DD HH:mm:ss" TZ = Ok t ->
       fst (parse_json arrow_get (VRef l) st) = Raise ValueError) /\
    fst (parse_json Demo.arrow_get (VRef 1%positive) (Demo.holding d))
      = Raise ValueError.
Proof.
  exists (Demo.payload (VStr "abc")).
  assert (Hnn : no_null (Demo.payload (VStr "abc")))
    by (apply payload_no_null; discriminate).
  split; [apply payload_keys|]. split; [exact Hnn|].
  split; [reflexivity|]. split; [reflexivity|]. split; [intros []|].
  split.
  - intros arrow_get st l t Hl Ed.
    apply (parse_json_float_error arrow_get st l (Demo.payload (VStr "abc"))
             (VStr "2023-06-27 18:00:00") (VStr "abc") t ValueError Hl
             (payload_keys _) Hnn eq_refl eq_refl Ed eq_refl).
  - vm_compute. reflexivity.
Qed.

(** ** query *)

Section QueryRuns.

Variable json_loads : string -> result json.
Variable arrow_get : value -> string -> tzinfo -> result datetime.

(** When the loop of [parse_json] ends well, it has filled the six fields. *)
Lemma fill_ok (d : gmap string value) (u : unit) :
  fst (fill arrow_get d JSON_QUERY_TO_SRC ∅) = Ok u ->
  exists t c s w i tc,
    snd (fill arrow_get d JSON_QUERY_TO_SRC ∅) = reading t c s w i tc.
Proof.
  cbn [fill JSON_QUERY_TO_SRC]. unfold convert.
  cbn [String.eqb Ascii.eqb Bool.eqb].
  destruct (d !! "date") as [xd|]; [|discriminate].
  destruct (arrow_get xd "YYYY-MM-DD HH:mm:ss" TZ) as [t|]; [|discriminate].
  destruct (d !! "syssum") as [xc|]; [|discriminate].
  destruct (py_float xc) as [c|]; [|discriminate].
  destruct (d !! "sumnar") as [xs|]; [|discriminate].
  destruct (py_float xs) as [s|]; [|discriminate].
  destruct (d !! "sums") as [xw|]; [|discriminate].
  destruct (py_float xw) as [w|]; [|discriminate].
  destruct (d !! "energyimport") as [xi|]; [|discriminate].
  destruct (py_float xi) as [i|]; [|discriminate].
  destruct (d !! "t") as [xt|]; [|discriminate].
  destruct (py_float xt) as [tc|]; [|discriminate].
  intros _. exists t, c, s, w, i, tc. reflexivity.
Qed.

(** A successful [parse_json] returns a new dict that is a reading. *)
Lemma parse_json_ok (w : value) (st st' : state) (qv : value) :
  parse_json arrow_get w st = (Ok qv, st') ->
  exists q t c s w i tc,
    qv = VRef q /\ heap st' !! q = Some (ODict (reading t c s w i tc)).
Proof.
  intros Hrun.
  destruct (dict_or_not w st) as [(l & d & -> & Hl)|Hw].
  - rewrite (run_parse_json _ _ _ _ Hl) in Hrun.
    destruct (bool_decide (expected_keys <> dom d)); [discriminate|].
    destruct (existsb is_None ((map_to_list d).*2)); [discriminate|].
    cbv zeta in Hrun.
    destruct (fst (fill arrow_get d JSON_QUERY_TO_SRC ∅)) as [u|] eqn:Hfill;
      [|discriminate].
    destruct (fill_ok d u Hfill) as (t & c & s & w & i & tc & Hqd).
    rewrite Hqd in Hrun. injection Hrun as <- <-.
    exists (fresh (dom (heap st))), t, c, s, w, i, tc.
    split; [reflexivity|]. cbn. apply lookup_insert_eq.
  - destruct (parse_json_not_a_dict arrow_get w st Hw) as (e & He & _).
    congruence.
Qed.

(** [query], step by step: the GET, the status check, the decoding, the
    allocation of the decoded document, [parse_json]. *)
Lemma run_query (session : Session) (st : state) :
  query json_loads arrow_get session st =
  let st1 := mk_state (heap st) (trace st ++ [EvHttpGet NDC_GENERATION]) in
  match session NDC_GENERATION with
  | Raise e => (Raise e, st1)
  | Ok r =>
      if negb (ok r) then
        (Raise (ParserException "MN.py" (MsgRequestFailed (status_code r))), st1)
      else
        let st2 := mk_state (heap st) (trace st1 ++ [EvJsonLoads (text r)]) in
        match json_loads (text r) with
        | Raise e => (Raise e, st2)
        | Ok j =>
            match load j st2 with
            | (Ok w, st3) => parse_json arrow_get w st3
            | (Raise e, st3) => (Raise e, st3)
            end
        end
  end.
Proof.
  unfold query, session_get. rewrite !run_bind. cbn [emit].
  destruct (session NDC_GENERATION) as [r|e]; [|reflexivity].
  cbn [lift ret]. destruct (negb (ok r)); [reflexivity|].
  rewrite !run_bind. cbn [emit heap trace].
  destruct (json_loads (text r)) as [j|e]; [|reflexivity].
  cbn [lift]. cbv zeta. rewrite run_bind. cbn [ret]. rewrite run_bind.
  destruct (load j _) as [[w|e] st3]; [|reflexivity].
  rewrite run_bind.
  destruct (parse_json arrow_get w st3) as [[qv|e] st4]; reflexivity.
Qed.

(** A successful [query] returns a reading. *)
Lemma query_ok (session : Session) (st st' : state) (qv : value) :
  query json_loads arrow_get session st = (Ok qv, st') ->
  exists q t c s w i tc,
    qv = VRef q /\ heap st' !! q = Some (ODict (reading t c s w i tc)).
Proof.
  rewrite run_query. cbv zeta.
  destruct (session NDC_GENERATION) as [r|]; [|discriminate].
  destruct (negb (ok r)); [discriminate|].
  destruct (json_loads (text r)) as [j|]; [|discriminate].
  destruct (load j _) as [[w|] st1]; [|discriminate].
  apply parse_json_ok.
Qed.

End QueryRuns.

(** C5, counterexample. 304 is not a 2xx status, yet [Response.ok] holds for
    it: [query] hands the body to the JSON decoder and goes on exactly as for
    a 200, here to a successful result. *)
Lemma query_decodes_a_304 :
  ~ (200 <= 304 < 300) /\
  ok (mk_Response 304 "reading") = true /\
  query Demo.json_loads Demo.arrow_get (Demo.serving 304 "reading") Demo.st0
    = query Demo.json_loads Demo.arrow_get (Demo.serving 200 "reading") Demo.st0 /\
  fst (query Demo.json_loads Demo.arrow_get (Demo.serving 304 "reading") Demo.st0)
    = Ok (VRef 2%positive) /\
  trace (snd (query Demo.json_loads Demo.arrow_get (Demo.serving 304 "reading") Demo.st0))
    = [EvHttpGet NDC_GENERATION; EvJsonLoads "reading"].
Proof.
  split; [lia|]. split; [reflexivity|]. split; [reflexivity|].
  split; vm_compute; reflexivity.
Qed.

(** C5, as amended. A response whose status is a client or server error
    (400 to 599, the codes for which [Response.ok] is false) makes [query]
    raise the request-failed [ParserException], a FetchError, right after the
    GET: the only event added to the trace is the GET, so the body is not
    handed to the JSON decoder, and the heap is untouched. *)
Theorem query_http_error
    (json_loads : string -> result json)
    (arrow_get : value -> string -> tzinfo -> result datetime)
    (session : Session) (r : Response) (st : state) :
  session NDC_GENERATION = Ok r ->
  400 <= status_code r < 600 ->
  query json_loads arrow_get session st =
    (Raise (ParserException "MN.py" (MsgRequestFailed (status_code r))),
     mk_state (heap st) (trace st ++ [EvHttpGet NDC_GENERATION]))
  /\ FetchError (ParserException "MN.py" (MsgRequestFailed (status_code r))).
Proof.
  intros Hr Hcode. split; [|exact I].
  rewrite run_query, Hr. cbv zeta.
  assert (E : ok r = false).
  { unfold ok. apply negb_false_iff, andb_true_iff. split; lia. }
  rewrite E. reflexivity.
Qed.

Lemma query_http_error_witness :
  (query Demo.json_loads Demo.arrow_get (Demo.serving 404 "reading") Demo.st0 =
     (Raise (ParserException "MN.py" (MsgRequestFailed 404)),
      mk_state ∅ [EvHttpGet NDC_GENERATION])
   /\ FetchError (ParserException "MN.py" (MsgRequestFailed 404)))
  /\
  (query Demo.json_loads Demo.arrow_get (Demo.serving 503 "not json") Demo.st0 =
     (Raise (ParserException "MN.py" (MsgRequestFailed 503)),
      mk_state ∅ [EvHttpGet NDC_GENERATION])
   /\ FetchError (ParserException "MN.py" (MsgRequestFailed 503))).
Proof.
  split.
  - apply (query_http_error Demo.json_loads Demo.arrow_get
             (Demo.serving 404 "reading") (mk_Response 404 "reading") Demo.st0).
    + reflexivity.
    + simpl. lia.
  - apply (query_http_error Demo.json_loads Demo.arrow_get
             (Demo.serving 503 "not json") (mk_Response 503 "not json") Demo.st0).
    + reflexivity.
    + simpl. lia.
Defined.

(** ** fetch_production, fetch_consumption *)

(** C6. With a target datetime, [fetch_production] and [fetch_consumption]
    raise [NotImplementedError], an UnsupportedError, whatever the session
    would answer, and the state is the one before the call: no GET has been
    issued, nothing has been decoded or allocated. *)
Theorem fetch_past_dates_unsupported
    (json_loads : string -> result json)
    (arrow_get : value -> string -> tzinfo -> result datetime)
    (zone_key : string) (session : Session) (target : datetime)
    (logger : Logger) (st : state) :
  fetch_production json_loads arrow_get zone_key session (Some target) logger st =
    (Raise (NotImplementedError "This parser is not yet able to parse past dates."), st)
  /\
  fetch_consumption json_loads arrow_get zone_key session (Some target) logger st =
    (Raise (NotImplementedError "This parser is not yet able to parse past dates."), st)
  /\
  UnsupportedError (NotImplementedError "This parser is not yet able to parse past dates.").
Proof. repeat split. Qed.

(** One statement of a straight-line run, followed by the rest [k]. *)

Lemma then_getitem {B} (l : loc) (d : gmap string value) (key : string)
    (x : value) (k : value -> M B) (st : state) :
  heap st !! l = Some (ODict d) -> d !! key = Some x ->
  (getitem (VRef l) key ≫= k) st = k x st.
Proof. intros Hl Hx. rewrite run_bind, (run_getitem _ _ _ _ Hl), Hx. reflexivity. Qed.

Lemma then_setitem {B} (l : loc) (d : gmap string value) (key : string)
    (x : value) (k : unit -> M B) (st : state) :
  heap st !! l = Some (ODict d) ->
  (setitem (VRef l) key x ≫= k) st =
  k tt (mk_state (<[l := ODict (<[key := x]> d)]> (heap st)) (trace st)).
Proof. intros Hl. rewrite run_bind, (run_setitem _ _ _ _ _ Hl). reflexivity. Qed.

Lemma then_lift {A B} (a : A) (k : A -> M B) (st : state) :
  (lift (Ok a) ≫= k) st = k a st.
Proof. reflexivity. Qed.

Lemma then_alloc {B} (o : object) (k : value -> M B) (st : state) :
  (alloc o ≫= k) st =
  k (VRef (fresh (dom (heap st))))
    (mk_state (<[fresh (dom (heap st)) := o]> (heap st)) (trace st)).
Proof. reflexivity. Qed.

Section FetchRuns.

Variable json_loads : string -> result json.
Variable arrow_get : value -> string -> tzinfo -> result datetime.

(** [fetch_production] after a successful [query]: [unknownMW] is added to
    the reading, then the two dicts of the result are allocated. *)
Lemma run_fetch_production (zone_key : string) (session : Session)
    (logger : Logger) (st st1 : state) (q : loc) (t : datetime)
    (c s w i tc : PyFloat.float) :
  query json_loads arrow_get session st = (Ok (VRef q), st1) ->
  heap st1 !! q = Some (ODict (reading t c s w i tc)) ->
  let u := unknownMW c i s w in
  let h1 := <[q := ODict (<["unknownMW" := VFloat u]> (reading t c s w i tc))]>
              (heap st1) in
  let p := fresh (dom h1) in
  let h2 := <[p := ODict (production_mix u s w)]> h1 in
  let r := fresh (dom h2) in
  fetch_production json_loads arrow_get zone_key session None logger st =
  (Ok (VRef r),
   mk_state (<[r := ODict (production_record zone_key t (VRef p))]> h2) (trace st1)).
Proof.
  intros Hq Hq1 u h1 p h2 r.
  unfold fetch_production. cbn [truthy]. rewrite run_bind, Hq.
  rewrite (then_getitem q _ "consumptionMW" (VFloat c) _ _ Hq1 eq_refl).
  rewrite (then_getitem q _ "importMW" (VFloat i) _ _ Hq1 eq_refl).
  cbn [py_sub number_of]. rewrite then_lift.
  rewrite (then_getitem q _ "solarMW" (VFloat s) _ _ Hq1 eq_refl).
  cbn [py_sub number_of]. rewrite then_lift.
  rewrite (then_getitem q _ "windMW" (VFloat w) _ _ Hq1 eq_refl).
  cbn [py_sub number_of]. rewrite then_lift.
  cbn [py_round number_of]. rewrite then_lift.
  fold (unknownMW c i s w). fold u.
  rewrite (then_setitem q _ _ _ _ _ Hq1). fold h1.
  assert (Hq2 : heap (mk_state h1 (trace st1)) !! q
                = Some (ODict (<["unknownMW" := VFloat u]> (reading t c s w i tc))))
    by apply lookup_insert_eq.
  rewrite (then_getitem q _ "unknownMW" (VFloat u) _ _ Hq2 eq_refl).
  rewrite (then_getitem q _ "solarMW" (VFloat s) _ _ Hq2 eq_refl).
  rewrite (then_getitem q _ "windMW" (VFloat w) _ _ Hq2 eq_refl).
  rewrite then_alloc. cbn [heap trace].
  fold (production_mix u s w). fold p. fold h2.
  assert (Hq3 : heap (mk_state h2 (trace st1)) !! q
                = Some (ODict (<["unknownMW" := VFloat u]> (reading t c s w i tc)))).
  { cbn. subst h2. rewrite lookup_insert_ne; [apply lookup_insert_eq|].
    apply not_eq_sym, (fresh_loc_ne h1 q _ Hq2). }
  rewrite (then_getitem q _ "time" (VDatetime t) _ _ Hq3 eq_refl).
  rewrite then_alloc. reflexivity.
Qed.

(** [fetch_consumption] after a successful [query]. *)
Lemma run_fetch_consumption (zone_key : string) (session : Session)
    (logger : Logger) (st st1 : state) (q : loc) (t : datetime)
    (c s w i tc : PyFloat.float) :
  query json_loads arrow_get session st = (Ok (VRef q), st1) ->
  heap st1 !! q = Some (ODict (reading t c s w i tc)) ->
  let r := fresh (dom (heap st1)) in
  fetch_consumption json_loads arrow_get zone_key session None logger st =
  (Ok (VRef r),
   mk_state (<[r := ODict (consumption_record zone_key t c)]> (heap st1)) (trace st1)).
Proof.
  intros Hq Hq1 r.
  unfold fetch_consumption. cbn [truthy]. rewrite run_bind, Hq.
  rewrite (then_getitem q _ "time" (VDatetime t) _ _ Hq1 eq_refl).
  rewrite (then_getitem q _ "consumptionMW" (VFloat c) _ _ Hq1 eq_refl).
  rewrite then_alloc. reflexivity.
Qed.

(** A fetch that returns has made a [query] that returned. *)
Lemma fetch_production_queried (zone_key : string) (session : Session)
    (target : option datetime) (logger : Logger) (st st' : state) (v : value) :
  fetch_production json_loads arrow_get zone_key session target logger st = (Ok v, st') ->
  target = None /\
  exists qv st1, query json_loads arrow_get session st = (Ok qv, st1).
Proof.
  unfold fetch_production. destruct target as [d|]; [discriminate|].
  cbn [truthy]. rewrite run_bind.
  destruct (query json_loads arrow_get session st) as [[qv|e] st1]; [|discriminate].
  intros _. eauto.
Qed.

Lemma fetch_consumption_queried (zone_key : string) (session : Session)
    (target : option datetime) (logger : Logger) (st st' : state) (v : value) :
  fetch_consumption json_loads arrow_get zone_key session target logger st = (Ok v, st') ->
  target = None /\
  exists qv st1, query json_loads arrow_get session st = (Ok qv, st1).
Proof.
  unfold fetch_consumption. destruct target as [d|]; [discriminate|].
  cbn [truthy]. rewrite run_bind.
  destruct (query json_loads arrow_get session st) as [[qv|e] st1]; [|discriminate].
  intros _. eauto.
Qed.

End FetchRuns.

Section FetchResults.

Variable json_loads : string -> result json.
Variable arrow_get : value -> string -> tzinfo -> result datetime.

(** A successful [fetch_production]: the reading its [query] returned, and
    where the two dicts of the result are. *)
Lemma fetch_production_ok (zone_key : string) (session : Session)
    (target : option datetime) (logger : Logger) (st st' : state) (v : value) :
  fetch_production json_loads arrow_get zone_key session target logger st = (Ok v, st') ->
  exists q st1 t c s w i tc r p,
    query json_loads arrow_get session st = (Ok (VRef q), st1) /\
    heap st1 !! q = Some (ODict (reading t c s w i tc)) /\
    v = VRef r /\
    heap st' !! r = Some (ODict (production_record zone_key t (VRef p))) /\
    heap st' !! p = Some (ODict (production_mix (unknownMW c i s w) s w)).
Proof.
  intros Hrun.
  destruct (fetch_production_queried _ _ _ _ _ _ _ _ _ Hrun) as (-> & qv & st1 & Hq).
  destruct (query_ok _ _ _ _ _ _ Hq) as (q & t & c & s & w & i & tc & -> & Hq1).
  pose proof (run_fetch_production json_loads arrow_get zone_key session logger
                st st1 q t c s w i tc Hq Hq1) as Hp.
  cbv zeta in Hp. rewrite Hp in Hrun. injection Hrun as <- <-.
  eexists q, st1, t, c, s, w, i, tc, _, _.
  split; [exact Hq|]. split; [exact Hq1|]. split; [reflexivity|].
  cbn [heap]. split; [apply lookup_insert_eq|].
  rewrite lookup_insert_ne; [apply lookup_insert_eq|].
  apply not_eq_sym, (fresh_loc_ne _ _ (ODict (production_mix (unknownMW c i s w) s w))).
  apply lookup_insert_eq.
Qed.

Lemma fetch_consumption_ok (zone_key : string) (session : Session)
    (target : option datetime) (logger : Logger) (st st' : state) (v : value) :
  fetch_consumption json_loads arrow_get zone_key session target logger st = (Ok v, st') ->
  exists q st1 t c s w i tc r,
    query json_loads arrow_get session st = (Ok (VRef q), st1) /\
    heap st1 !! q = Some (ODict (reading t c s w i tc)) /\
    v = VRef r /\
    heap st' !! r = Some (ODict (consumption_record zone_key t c)).
Proof.
  intros Hrun.
  destruct (fetch_consumption_queried _ _ _ _ _ _ _ _ _ Hrun) as (-> & qv & st1 & Hq).
  destruct (query_ok _ _ _ _ _ _ Hq) as (q & t & c & s & w & i & tc & -> & Hq1).
  pose proof (run_fetch_consumption json_loads arrow_get zone_key session logger
                st st1 q t c s w i tc Hq Hq1) as Hp.
  cbv zeta in Hp. rewrite Hp in Hrun. injection Hrun as <- <-.
  eexists q, st1, t, c, s, w, i, tc, _.
  split; [exact Hq|]. split; [exact Hq1|]. split; [reflexivity|].
  cbn [heap]. apply lookup_insert_eq.
Qed.

End FetchResults.

(** C1. After a successful [fetch_production], the value under [unknown] in
    the production dict of the result is
    [round(consumptionMW - importMW - solarMW - windMW, 2)], taken on the
    floats of the reading that [query] returned. On the floats 869.37, 49.58,
    42.34 and 119.79 that value is the float 657.66. *)
Theorem fetch_production_unknownMW
    (json_loads : string -> result json)
    (arrow_get : value -> string -> tzinfo -> result datetime)
    (zone_key : string) (session : Session) (target : option datetime)
    (logger : Logger) (st st' : state) (v : value) :
  fetch_production json_loads arrow_get zone_key session target logger st = (Ok v, st') ->
  (exists q st1 t c s w i tc r p record mix,
     query json_loads arrow_get session st = (Ok (VRef q), st1) /\
     heap st1 !! q = Some (ODict (reading t c s w i tc)) /\
     v = VRef r /\
     heap st' !! r = Some (ODict record) /\
     record !! "production" = Some (VRef p) /\
     heap st' !! p = Some (ODict mix) /\
     mix !! "unknown" =
       Some (VFloat (PyFloat.round
                       (PyFloat.sub (PyFloat.sub (PyFloat.sub c i) s) w) 2)))
  /\
  (exists c i s w u,
     py_float (VStr "869.37") = Ok c /\ py_float (VStr "49.58") = Ok i /\
     py_float (VStr "42.34") = Ok s /\ py_float (VStr "119.79") = Ok w /\
     py_float (VStr "657.66") = Ok u /\
     PyFloat.round (PyFloat.sub (PyFloat.sub (PyFloat.sub c i) s) w) 2 = u).
Proof.
  intros Hrun. split.
  - destruct (fetch_production_ok _ _ _ _ _ _ _ _ _ Hrun)
      as (q & st1 & t & c & s & w & i & tc & r & p & Hq & Hq1 & Hv & Hr & Hp).
    exists q, st1, t, c, s, w, i, tc, r, p,
      (production_record zone_key t (VRef p)),
      (production_mix (unknownMW c i s w) s w).
    repeat (split; [assumption || reflexivity|]). reflexivity.
  - exists (PyFloat.of_decimal false 86937 (-2)), (PyFloat.of_decimal false 4958 (-2)),
      (PyFloat.of_decimal false 4234 (-2)), (PyFloat.of_decimal false 11979 (-2)),
      (PyFloat.of_decimal false 65766 (-2)).
    repeat split; vm_compute; reflexivity.
Qed.

Lemma fetch_production_unknownMW_witness :
  let run := fetch_production Demo.json_loads Demo.arrow_get "MN"
               (Demo.serving 200 "reading") None (getLogger "MN") Demo.st0 in
  (exists q st1 t c s w i tc r p record mix,
     query Demo.json_loads Demo.arrow_get (Demo.serving 200 "reading") Demo.st0
       = (Ok (VRef q), st1) /\
     heap st1 !! q = Some (ODict (reading t c s w i tc)) /\
     VRef 4%positive = VRef r /\
     heap (snd run) !! r = Some (ODict record) /\
     record !! "production" = Some (VRef p) /\
     heap (snd run) !! p = Some (ODict mix) /\
     mix !! "unknown" =
       Some (VFloat (PyFloat.round
                       (PyFloat.sub (PyFloat.sub (PyFloat.sub c i) s) w) 2)))
  /\
  (exists c i s w u,
     py_float (VStr "869.37") = Ok c /\ py_float (VStr "49.58") = Ok i /\
     py_float (VStr "42.34") = Ok s /\ py_float (VStr "119.79") = Ok w /\
     py_float (VStr "657.66") = Ok u /\
     PyFloat.round (PyFloat.sub (PyFloat.sub (PyFloat.sub c i) s) w) 2 = u).
Proof.
  intros run.
  apply (fetch_production_unknownMW Demo.json_loads Demo.arrow_get "MN"
           (Demo.serving 200 "reading") None (getLogger "MN") Demo.st0
           (snd run) (VRef 4%positive)).
  vm_compute. reflexivity.
Defined.

(** C7. A successful [fetch_production] returns a dict with [zoneKey] the
    zone argument, [datetime] the time of the reading, [production] a dict
    with [unknown] the computed [unknownMW], [solar] and [wind] those of the
    reading, and [source] the attribution URL. A successful
    [fetch_consumption] returns a dict with the same [zoneKey], [datetime]
    and [source], and [consumption] the [consumptionMW] of the reading. *)
Theorem fetch_records
    (json_loads : string -> result json)
    (arrow_get : value -> string -> tzinfo -> result datetime)
    (zone_key : string) (session : Session) (target : option datetime)
    (logger : Logger) (st : state) :
  (forall v st',
     fetch_production json_loads arrow_get zone_key session target logger st = (Ok v, st') ->
     exists q st1 t c s w i tc r p,
       query json_loads arrow_get session st = (Ok (VRef q), st1) /\
       heap st1 !! q = Some (ODict (reading t c s w i tc)) /\
       v = VRef r /\
       heap st' !! r = Some (ODict (production_record zone_key t (VRef p))) /\
       heap st' !! p = Some (ODict (production_mix (unknownMW c i s w) s w)))
  /\
  (forall v st',
     fetch_consumption json_loads arrow_get zone_key session target logger st = (Ok v, st') ->
     exists q st1 t c s w i tc r,
       query json_loads arrow_get session st = (Ok (VRef q), st1) /\
       heap st1 !! q = Some (ODict (reading t c s w i tc)) /\
       v = VRef r /\
       heap st' !! r = Some (ODict (consumption_record zone_key t c))).
Proof.
  split; intros v st' Hrun.
  - exact (fetch_production_ok _ _ _ _ _ _ _ _ _ Hrun).
  - exact (fetch_consumption_ok _ _ _ _ _ _ _ _ _ Hrun).
Qed.

Lemma fetch_records_witness :
  let production := fetch_production Demo.json_loads Demo.arrow_get "MN"
                      (Demo.serving 200 "reading") None (getLogger "MN") Demo.st0 in
  let consumption := fetch_consumption Demo.json_loads Demo.arrow_get "MN"
                       (Demo.serving 200 "reading") None (getLogger "MN") Demo.st0 in
  (exists q st1 t c s w i tc r p,
     query Demo.json_loads Demo.arrow_get (Demo.serving 200 "reading") Demo.st0
       = (Ok (VRef q), st1) /\
     heap st1 !! q = Some (ODict (reading t c s w i tc)) /\
     VRef 4%positive = VRef r /\
     heap (snd production) !! r = Some (ODict (production_record "MN" t (VRef p))) /\
     heap (snd production) !! p = Some (ODict (production_mix (unknownMW c i s w) s w)))
  /\
  (exists q st1 t c s w i tc r,
     query Demo.json_loads Demo.arrow_get (Demo.serving 200 "reading") Demo.st0
       = (Ok (VRef q), st1) /\
     heap st1 !! q = Some (ODict (reading t c s w i tc)) /\
     VRef 3%positive = VRef r /\
     heap (snd consumption) !! r = Some (ODict (consumption_record "MN" t c))).
Proof.
  intros production consumption.
  destruct (fetch_records Demo.json_loads Demo.arrow_get "MN"
              (Demo.serving 200 "reading") None (getLogger "MN") Demo.st0)
    as [Hp Hc].
  split.
  - apply (Hp (VRef 4%positive) (snd production)). vm_compute. reflexivity.
  - apply (Hc (VRef 3%positive) (snd consumption)). vm_compute. reflexivity.
Defined.

(** ** The float model against CPython

    Values below were obtained from CPython 3.11 ([float.hex], [round]). *)

Example float_of_869_37 :
  PyFloat.of_string "869.37" = Some (S754_finite false 7647059390716969 (-43)).
Proof. vm_compute. reflexivity. Qed.

Example float_of_657_66 :
  PyFloat.of_string "657.66" = Some (S754_finite false 5784838536985313 (-43)).
Proof. vm_compute. reflexivity. Qed.

Example float_underscores_and_exponent :
  PyFloat.of_string " 1_000.5e1_0 " = Some (S754_finite false 5122560000000000 (-9)).
Proof. vm_compute. reflexivity. Qed.

Example float_overflow_is_inf :
  PyFloat.of_string "1e400" = Some (S754_infinity false).
Proof. vm_compute. reflexivity. Qed.

Example float_smallest_subnormal :
  PyFloat.of_string "4.9e-324" = Some (S754_finite false 1 (-1074)).
Proof. vm_compute. reflexivity. Qed.

Example float_rejects :
  map PyFloat.of_string ["abc"; ""; "1e"; "."; "1__0"; "_1"; "1_"; "0x10"; "infin"; "1 2"]
  = [None; None; None; None; None; None; None; None; None; None].
Proof. vm_compute. reflexivity. Qed.

Example float_of_infinity :
  PyFloat.of_string "-Infinity" = Some (S754_infinity true).
Proof. vm_compute. reflexivity. Qed.

(** [round(2.675, 2) = 2.67], [round(0.125, 2) = 0.12], [round(0.375, 2) = 0.38]
    and [round(-0.001, 2) = -0.0]. *)
Example round_ties_and_sign :
  PyFloat.round (S754_finite false 6023564501608038 (-51)) 2
    = S754_finite false 6012305502539612 (-51) /\
  PyFloat.round (S754_finite false 4503599627370496 (-55)) 2
    = S754_finite false 8646911284551352 (-56) /\
  PyFloat.round (S754_finite false 6755399441055744 (-54)) 2
    = S754_finite false 6845471433603154 (-54) /\
  PyFloat.round (S754_finite true 4611686018427388 (-62)) 2 = S754_zero true.
Proof. repeat split; vm_compute; reflexivity. Qed.

Example int_too_large_for_float :
  PyFloat.of_int (2 ^ 1024) = None /\
  PyFloat.of_int (2 ^ 53 + 1) = Some (S754_finite false 4503599627370496 1).
Proof. split; vm_compute; reflexivity. Qed.

(** ** Runs of the whole program on the reference instance *)

(** A body that decodes to a list has no [keys]. *)
Example query_on_a_list :
  fst (query Demo.json_loads Demo.arrow_get (Demo.serving 200 "[]") Demo.st0)
  = Raise AttributeError.
Proof. vm_compute. reflexivity. Qed.

(** A body that is not JSON: the error of the decoder comes out as it is. *)
Example fetch_on_bad_json :
  fst (fetch_consumption Demo.json_loads Demo.arrow_get "MN"
         (Demo.serving 200 "<html>") None (getLogger "MN") Demo.st0)
  = Raise (LibraryError "JSONDecodeError").
Proof. vm_compute. reflexivity. Qed.

(** The conversion error of [parse_json] comes out of [fetch_production]. *)
Example fetch_on_non_numeric_syssum :
  fst (fetch_production Demo.json_loads Demo.arrow_get "MN"
         (Demo.serving 200 "reading with syssum abc") None (getLogger "MN") Demo.st0)
  = Raise ValueError.
Proof. vm_compute. reflexivity. Qed.

(** The reading of the docstring: production and consumption. *)
Example fetch_production_on_the_docstring_reading :
  let run := fetch_production Demo.json_loads Demo.arrow_get "MN"
               (Demo.serving 200 "reading") None (getLogger "MN") Demo.st0 in
  fst run = Ok (VRef 4%positive) /\
  heap (snd run) !! 4%positive =
    Some (ODict (production_record "MN" (mk_datetime 2023 6 27 18 0 0 0 (Some TZ))
                   (VRef 3%positive))) /\
  heap (snd run) !! 3%positive =
    Some (ODict (production_mix (S754_finite false 5784838536985313 (-43))
                   (S754_finite false 5958825256964588 (-47))
                   (S754_finite false 8429471865042371 (-46)))) /\
  PyFloat.of_string "657.66" = Some (S754_finite false 5784838536985313 (-43)) /\
  trace (snd run) = [EvHttpGet NDC_GENERATION; EvJsonLoads "reading"].
Proof. repeat split; vm_compute; reflexivity. Qed.

Example fetch_consumption_on_the_docstring_reading :
  let run := fetch_consumption Demo.json_loads Demo.arrow_get "MN"
               (Demo.serving 200 "reading") None (getLogger "MN") Demo.st0 in
  fst run = Ok (VRef 3%positive) /\
  heap (snd run) !! 3%positive =
    Some (ODict (consumption_record "MN" (mk_datetime 2023 6 27 18 0 0 0 (Some TZ))
                   (S754_finite false 7647059390716969 (-43)))).
Proof. repeat split; vm_compute; reflexivity. Qed.

(** ** Further properties: allocation of a decoded document *)

Lemma only_allocates_refl (st : state) : only_allocates st st.
Proof. split; [reflexivity|auto]. Qed.

Lemma only_allocates_trans (st1 st2 st3 : state) :
  only_allocates st1 st2 -> only_allocates st2 st3 -> only_allocates st1 st3.
Proof.
  intros [T1 H1] [T2 H2]. split; [congruence|]. intros l o Hl. apply H2, H1, Hl.
Qed.

Lemma only_allocates_alloc (o : object) (st : state) :
  only_allocates st (mk_state (<[fresh (dom (heap st)) := o]> (heap st)) (trace st)).
Proof.
  split; [reflexivity|]. intros l o' Hl. cbn.
  rewrite lookup_insert_ne; [exact Hl|]. apply not_eq_sym, (fresh_loc_ne _ _ _ Hl).
Qed.

(** [load] always returns; it only allocates, and what it returns stands for
    the document. *)
Lemma load_returns (j : json) :
  forall st, exists v st',
    load j st = (Ok v, st') /\ only_allocates st st' /\ loaded j v st'.
Proof.
  induction j as [| b | n | f | s | xs IH | kvs IH] using json_induction; intros st;
    try (eexists _, st; split; [reflexivity|];
         split; [apply only_allocates_refl|reflexivity]).
  - assert (Hitems : forall st, exists vs st',
              (fix load_items (xs : list json) : M (list value) :=
                 match xs with
                 | [] => mret []
                 | x :: xs' => v ← load x; vs ← load_items xs'; mret (v :: vs)
                 end) xs st = (Ok vs, st') /\ only_allocates st st').
    { clear st. induction IH as [|x xs' Hx _ IHxs]; intros st.
      - exists [], st. split; [reflexivity|apply only_allocates_refl].
      - destruct (Hx st) as (v & st1 & Hv & Hst1 & _).
        destruct (IHxs st1) as (vs & st2 & Hvs & Hst2).
        exists (v :: vs), st2. split; [|exact (only_allocates_trans _ _ _ Hst1 Hst2)].
        rewrite run_bind, Hv, run_bind, Hvs. reflexivity. }
    destruct (Hitems st) as (vs & st1 & Hvs & Hst1).
    eexists _, _. split; [|split].
    + cbn [load]. rewrite run_bind, Hvs. reflexivity.
    + exact (only_allocates_trans _ _ _ Hst1 (only_allocates_alloc _ _)).
    + cbn. eexists _, vs. split; [reflexivity|]. apply lookup_insert_eq.
  - assert (Hmembers : forall acc st, exists d st',
              (fix load_members (kvs : list (string * json)) (acc : gmap string value)
                 : M (gmap string value) :=
                 match kvs with
                 | [] => mret acc
                 | (k, x) :: kvs' => v ← load x; load_members kvs' (<[k := v]> acc)
                 end) kvs acc st = (Ok d, st') /\ only_allocates st st').
    { clear st. induction IH as [|[k x] kvs' Hx _ IHkvs]; intros acc st.
      - exists acc, st. split; [reflexivity|apply only_allocates_refl].
      - destruct (Hx st) as (v & st1 & Hv & Hst1 & _).
        destruct (IHkvs (<[k := v]> acc) st1) as (d & st2 & Hd & Hst2).
        exists d, st2. split; [|exact (only_allocates_trans _ _ _ Hst1 Hst2)].
        rewrite run_bind. cbn [snd] in Hv. rewrite Hv. exact Hd. }
    destruct (Hmembers ∅ st) as (d & st1 & Hd & Hst1).
    eexists _, _. split; [|split].
    + cbn [load]. rewrite run_bind, Hd. reflexivity.
    + exact (only_allocates_trans _ _ _ Hst1 (only_allocates_alloc _ _)).
    + cbn. eexists _, d. split; [reflexivity|]. apply lookup_insert_eq.
Qed.

(** ** Further properties: what a run leaves behind *)

Section RunFacts.

Variable json_loads : string -> result json.
Variable arrow_get : value -> string -> tzinfo -> result datetime.

(** [parse_json] emits nothing and touches no object that existed. *)
Lemma parse_json_only_allocates (w : value) (st : state) :
  only_allocates st (snd (parse_json arrow_get w st)).
Proof.
  split.
  - destruct (dict_or_not w st) as [(l & d & -> & Hl)|Hw].
    + rewrite (run_parse_json _ _ _ _ Hl).
      destruct (bool_decide (expected_keys <> dom d)); [reflexivity|].
      destruct (existsb is_None ((map_to_list d).*2)); reflexivity.
    + destruct (parse_json_not_a_dict arrow_get w st Hw) as (e & He & _).
      rewrite He. reflexivity.
  - apply (parse_json_frame arrow_get w st _ (fst (parse_json arrow_get w st))).
    by destruct (parse_json arrow_get w st).
Qed.

(** A successful [parse_json], in full: what the payload was, and where the
    result is. *)
Lemma parse_json_success (w : value) (st st' : state) (v : value) :
  parse_json arrow_get w st = (Ok v, st') ->
  exists l d xd xc xs xw xi xt t c s w' i tc,
    w = VRef l /\ heap st !! l = Some (ODict d) /\
    dom d = expected_keys /\ no_null d /\
    d !! "date" = Some xd /\ d !! "syssum" = Some xc /\ d !! "sumnar" = Some xs /\
    d !! "sums" = Some xw /\ d !! "energyimport" = Some xi /\ d !! "t" = Some xt /\
    arrow_get xd "YYYY-MM-DD HH:mm:ss" TZ = Ok t /\
    py_float xc = Ok c /\ py_float xs = Ok s /\ py_float xw = Ok w' /\
    py_float xi = Ok i /\ py_float xt = Ok tc /\
    v = VRef (fresh (dom (heap st))) /\
    st' = mk_state (<[fresh (dom (heap st)) := ODict (reading t c s w' i tc)]> (heap st))
                   (trace st).
Proof.
  intros Hrun.
  destruct (dict_or_not w st) as [(l & d & -> & Hl)|Hw].
  2:{ destruct (parse_json_not_a_dict arrow_get w st Hw) as (e & He & _). congruence. }
  rewrite (run_parse_json _ _ _ _ Hl) in Hrun.
  destruct (bool_decide (expected_keys <> dom d)) eqn:Hkeys; [discriminate|].
  destruct (existsb is_None ((map_to_list d).*2)) eqn:Hnull; [discriminate|].
  apply bool_decide_eq_false in Hkeys.
  assert (Hdom : dom d = expected_keys).
  { destruct (decide (dom d = expected_keys)) as [E|E]; [exact E|].
    destruct Hkeys. congruence. }
  cbv zeta in Hrun. revert Hrun.
  cbn [fill JSON_QUERY_TO_SRC]. unfold convert. cbn [String.eqb Ascii.eqb Bool.eqb].
  destruct (d !! "date") as [xd|] eqn:Hxd; [|discriminate].
  destruct (arrow_get xd "YYYY-MM-DD HH:mm:ss" TZ) as [t|] eqn:Et; [|discriminate].
  destruct (d !! "syssum") as [xc|] eqn:Hxc; [|discriminate].
  destruct (py_float xc) as [c|] eqn:Ec; [|discriminate].
  destruct (d !! "sumnar") as [xs|] eqn:Hxs; [|discriminate].
  destruct (py_float xs) as [s|] eqn:Es; [|discriminate].
  destruct (d !! "sums") as [xw|] eqn:Hxw; [|discriminate].
  destruct (py_float xw) as [w|] eqn:Ew; [|discriminate].
  destruct (d !! "energyimport") as [xi|] eqn:Hxi; [|discriminate].
  destruct (py_float xi) as [i|] eqn:Ei; [|discriminate].
  destruct (d !! "t") as [xt|] eqn:Hxt; [|discriminate].
  destruct (py_float xt) as [tc|] eqn:Etc; [|discriminate].
  intros [= <- <-].
  exists l, d, xd, xc, xs, xw, xi, xt, t, c, s, w, i, tc.
  split; [reflexivity|]. split; [exact Hl|]. split; [exact Hdom|].
  split; [by apply no_null_intro|].
  repeat (split; [assumption|]). split; reflexivity.
Qed.

(** The first conversion of the loop that fails decides how the loop ends. *)
Lemma fill_first_error (d : gmap string value) (fields : list (string * string)) :
  forall (qd : gmap string value) (n : nat) (query_key src_key : string)
         (x : value) (e : exn),
    fields !! n = Some (query_key, src_key) ->
    (forall m qk sk, (m < n)%nat -> fields !! m = Some (qk, sk) ->
       exists y v, d !! sk = Some y /\ convert arrow_get qk y = Ok v) ->
    d !! src_key = Some x ->
    convert arrow_get query_key x = Raise e ->
    fst (fill arrow_get d fields qd) = Raise e.
Proof.
  induction fields as [|[qk0 sk0] rest IH]; intros qd n query_key src_key x e Hn Hbefore Hx He.
  - discriminate.
  - destruct n as [|n].
    + injection Hn as -> ->. cbn [fill]. rewrite Hx, He. reflexivity.
    + destruct (Hbefore 0%nat qk0 sk0 ltac:(lia) eq_refl) as (y & v & Hy & Hv).
      cbn [fill]. rewrite Hy, Hv.
      apply (IH _ n query_key src_key x e Hn); [|exact Hx|exact He].
      intros m qk sk Hm Hlk. apply (Hbefore (S m) qk sk); [lia|exact Hlk].
Qed.

(** What [query] leaves behind, however it ends: the objects that existed,
    untouched; one GET and at most one decoding in the trace; and when it
    returns, a new dict that is a reading. *)
Lemma query_facts (session : Session) (st : state) :
  keeps_objects st (snd (query json_loads arrow_get session st)) /\
  (exists tail,
     trace (snd (query json_loads arrow_get session st))
       = (trace st ++ EvHttpGet NDC_GENERATION :: tail)%list /\
     (tail = [] \/ exists body, tail = [EvJsonLoads body])) /\
  (forall qv, fst (query json_loads arrow_get session st) = Ok qv ->
     exists q t c s w i tc,
       qv = VRef q /\ heap st !! q = None /\
       heap (snd (query json_loads arrow_get session st)) !! q
         = Some (ODict (reading t c s w i tc))).
Proof.
  rewrite run_query. cbv zeta. cbn [heap trace].
  destruct (session NDC_GENERATION) as [r|e].
  2:{ split; [intros l o H; exact H|]. split; [exists []; split; [reflexivity|by left]|].
      discriminate. }
  destruct (negb (ok r)).
  { split; [intros l o H; exact H|]. split; [exists []; split; [reflexivity|by left]|].
    discriminate. }
  destruct (json_loads (text r)) as [j|e].
  2:{ split; [intros l o H; exact H|]. split; [|discriminate].
      exists [EvJsonLoads (text r)]. split; [cbn; by rewrite <- app_assoc|right; eauto]. }
  set (st2 := mk_state (heap st) ((trace st ++ [EvHttpGet NDC_GENERATION])
                                   ++ [EvJsonLoads (text r)])).
  destruct (load_returns j st2) as (w & st3 & Hload & [T3 H3] & _). rewrite Hload.
  pose proof (parse_json_only_allocates w st3) as [T4 H4].
  split; [intros l o H; apply H4, H3; exact H|]. split.
  - exists [EvJsonLoads (text r)]. split; [|right; eauto].
    rewrite T4, T3. subst st2. cbn. by rewrite <- app_assoc.
  - intros qv Hqv.
    destruct (parse_json arrow_get w st3) as [res st4] eqn:Hrun. cbn in Hqv. subst res.
    destruct (parse_json_success _ _ _ _ Hrun)
      as (l & d & xd & xc & xs & xw & xi & xt & t & c & s & w' & i & tc & _ & _ & _ & _
          & _ & _ & _ & _ & _ & _ & _ & _ & _ & _ & _ & _ & -> & ->).
    exists (fresh (dom (heap st3))), t, c, s, w', i, tc.
    split; [reflexivity|]. split; [|cbn; apply lookup_insert_eq].
    destruct (heap st !! fresh (dom (heap st3))) as [o|] eqn:Hq; [|reflexivity].
    apply (H3 _ o) in Hq. rewrite fresh_loc_unused in Hq. discriminate.
Qed.

(** When [query] raises, so do the two fetches, in the same state. *)
Lemma fetch_raises_with_query (zone_key : string) (session : Session)
    (logger : Logger) (st st1 : state) (e : exn) :
  query json_loads arrow_get session st = (Raise e, st1) ->
  fetch_production json_loads arrow_get zone_key session None logger st = (Raise e, st1)
  /\ fetch_consumption json_loads arrow_get zone_key session None logger st = (Raise e, st1).
Proof.
  intros Hq. unfold fetch_production, fetch_consumption. cbn [truthy].
  rewrite !run_bind, Hq. split; reflexivity.
Qed.

End RunFacts.

(** ** Further properties of parse_json *)

Lemma parse_json_no_dict
    (arrow_get : value -> string -> tzinfo -> result datetime)
    (w : value) (st : state) :
  holds_no_dict w st ->
  parse_json arrow_get w st = (Raise AttributeError, st).
Proof.
  intros Hw. unfold parse_json, dict_keys. rewrite !run_bind. unfold dict_of.
  destruct w as [| | | | | |l]; try reflexivity.
  destruct Hw as (xs & ->). reflexivity.
Qed.

(** X1. [parse_json] returns only on a payload of the expected shape: its
    argument is a dict with exactly the expected keys and no null, the
    timestamp parser accepted the date and [float()] converted the other five
    values; the result is a newly allocated dict holding these six
    conversions, and nothing else changed. *)
Theorem parse_json_succeeds_only_if
    (arrow_get : value -> string -> tzinfo -> result datetime)
    (w : value) (st st' : state) (v : value) :
  parse_json arrow_get w st = (Ok v, st') ->
  exists l d xd xc xs xw xi xt t c s w' i tc,
    w = VRef l /\ heap st !! l = Some (ODict d) /\
    dom d = expected_keys /\ no_null d /\
    d !! "date" = Some xd /\ d !! "syssum" = Some xc /\ d !! "sumnar" = Some xs /\
    d !! "sums" = Some xw /\ d !! "energyimport" = Some xi /\ d !! "t" = Some xt /\
    arrow_get xd "YYYY-MM-DD HH:mm:ss" TZ = Ok t /\
    py_float xc = Ok c /\ py_float xs = Ok s /\ py_float xw = Ok w' /\
    py_float xi = Ok i /\ py_float xt = Ok tc /\
    v = VRef (fresh (dom (heap st))) /\
    st' = mk_state (<[fresh (dom (heap st)) := ODict (reading t c s w' i tc)]> (heap st))
                   (trace st).
Proof. apply parse_json_success. Qed.

Lemma parse_json_succeeds_only_if_witness :
  let st := Demo.holding (Demo.payload (VStr "869.37")) in
  let st' := snd (parse_json Demo.arrow_get (VRef 1%positive) st) in
  exists l d xd xc xs xw xi xt t c s w' i tc,
    VRef 1%positive = VRef l /\ heap st !! l = Some (ODict d) /\
    dom d = expected_keys /\ no_null d /\
    d !! "date" = Some xd /\ d !! "syssum" = Some xc /\ d !! "sumnar" = Some xs /\
    d !! "sums" = Some xw /\ d !! "energyimport" = Some xi /\ d !! "t" = Some xt /\
    Demo.arrow_get xd "YYYY-MM-DD HH:mm:ss" TZ = Ok t /\
    py_float xc = Ok c /\ py_float xs = Ok s /\ py_float xw = Ok w' /\
    py_float xi = Ok i /\ py_float xt = Ok tc /\
    VRef 2%positive = VRef (fresh (dom (heap st))) /\
    st' = mk_state (<[fresh (dom (heap st)) := ODict (reading t c s w' i tc)]> (heap st))
                   (trace st).
Proof.
  intros st st'.
  apply (parse_json_succeeds_only_if Demo.arrow_get (VRef 1%positive) st st'
           (VRef 2%positive)).
  vm_compute. reflexivity.
Defined.

(** X2. Once the two checks have passed, the fields are converted in the
    order of [JSON_QUERY_TO_SRC] and the first conversion that fails ends
    [parse_json] with its own exception: a date that the timestamp parser
    rejects is reported before any value that [float()] rejects, and a bad
    [syssum] before a bad [t]. *)
Theorem parse_json_first_error
    (arrow_get : value -> string -> tzinfo -> result datetime)
    (st : state) (l : loc) (d : gmap string value)
    (n : nat) (query_key src_key : string) (x : value) (e : exn) :
  heap st !! l = Some (ODict d) ->
  dom d = expected_keys ->
  no_null d ->
  JSON_QUERY_TO_SRC !! n = Some (query_key, src_key) ->
  (forall m qk sk, (m < n)%nat -> JSON_QUERY_TO_SRC !! m = Some (qk, sk) ->
     exists y v, d !! sk = Some y /\ convert arrow_get qk y = Ok v) ->
  d !! src_key = Some x ->
  convert arrow_get query_key x = Raise e ->
  fst (parse_json arrow_get (VRef l) st) = Raise e.
Proof.
  intros Hl Hkeys Hnull Hn Hbefore Hx He.
  rewrite (run_parse_json _ _ _ _ Hl), (keys_checked _ Hkeys), (has_null_false _ Hnull).
  cbv zeta. cbn [fst].
  rewrite (fill_first_error arrow_get d JSON_QUERY_TO_SRC ∅ n query_key src_key x e
             Hn Hbefore Hx He).
  reflexivity.
Qed.

Lemma parse_json_first_error_witness :
  (* the date and syssum are both bad: the error is the one of the date *)
  fst (parse_json Demo.arrow_get (VRef 1%positive)
         (Demo.holding (<["date" := VStr "27.06.2023"]> (Demo.payload (VStr "abc")))))
    = Raise (LibraryError "ParserMatchError")
  /\
  (* syssum and t are both bad: the error is the one of syssum *)
  fst (parse_json Demo.arrow_get (VRef 1%positive)
         (Demo.holding (<["t" := VStr "warm"]> (Demo.payload (VStr "abc")))))
    = Raise ValueError.
Proof.
  split.
  - apply (parse_json_first_error Demo.arrow_get _ 1%positive
             (<["date" := VStr "27.06.2023"]> (Demo.payload (VStr "abc")))
             0%nat "time" "date" (VStr "27.06.2023")).
    + reflexivity.
    + vm_compute. reflexivity.
    + apply no_null_intro. vm_compute. reflexivity.
    + reflexivity.
    + intros m qk sk Hm. lia.
    + reflexivity.
    + vm_compute. reflexivity.
  - apply (parse_json_first_error Demo.arrow_get _ 1%positive
             (<["t" := VStr "warm"]> (Demo.payload (VStr "abc")))
             1%nat "consumptionMW" "syssum" (VStr "abc")).
    + reflexivity.
    + vm_compute. reflexivity.
    + apply no_null_intro. vm_compute. reflexivity.
    + reflexivity.
    + intros m qk sk Hm Hlk. destruct m as [|m]; [|lia].
      injection Hlk as <- <-.
      exists (VStr "2023-06-27 18:00:00"),
             (VDatetime (mk_datetime 2023 6 27 18 0 0 0 (Some TZ))).
      split; [reflexivity|vm_compute; reflexivity].
    + reflexivity.
    + vm_compute. reflexivity.
Defined.

(** X3. Given anything but a dict (None, a bool, a number, a string, a
    datetime, a list), [parse_json] raises AttributeError at its first line,
    where it asks for the keys: this is not the [ParserException] of the
    validation, and the state is the one before the call. *)
Theorem parse_json_needs_a_dict
    (arrow_get : value -> string -> tzinfo -> result datetime)
    (w : value) (st : state) :
  holds_no_dict w st ->
  parse_json arrow_get w st = (Raise AttributeError, st)
  /\ ~ SchemaError AttributeError.
Proof.
  intros Hw. split; [exact (parse_json_no_dict arrow_get w st Hw)|intros []].
Qed.

Lemma parse_json_needs_a_dict_witness :
  (parse_json Demo.arrow_get (VStr "2023-06-27 18:00:00") Demo.st0
     = (Raise AttributeError, Demo.st0)
   /\ ~ SchemaError AttributeError)
  /\
  (parse_json Demo.arrow_get (VRef 1%positive)
     (mk_state {[ 1%positive := OList [VInt 1] ]} [])
     = (Raise AttributeError, mk_state {[ 1%positive := OList [VInt 1] ]} [])
   /\ ~ SchemaError AttributeError).
Proof.
  split.
  - apply (parse_json_needs_a_dict Demo.arrow_get (VStr "2023-06-27 18:00:00") Demo.st0).
    simpl. exact I.
  - apply (parse_json_needs_a_dict Demo.arrow_get (VRef 1%positive)
             (mk_state {[ 1%positive := OList [VInt 1] ]} [])).
    simpl. exists [VInt 1]. reflexivity.
Defined.

(** ** Further properties of query and of the two fetches *)

(** X4. When the session fails to deliver a response, the exception of the
    library leaves [query], [fetch_production] and [fetch_consumption] as it
    is, not wrapped in a [ParserException]; the GET is the only thing that
    happened. *)
Theorem fetch_connection_error
    (json_loads : string -> result json)
    (arrow_get : value -> string -> tzinfo -> result datetime)
    (zone_key : string) (session : Session) (logger : Logger)
    (st : state) (e : exn) :
  session NDC_GENERATION = Raise e ->
  let st1 := mk_state (heap st) (trace st ++ [EvHttpGet NDC_GENERATION]) in
  query json_loads arrow_get session st = (Raise e, st1) /\
  fetch_production json_loads arrow_get zone_key session None logger st = (Raise e, st1) /\
  fetch_consumption json_loads arrow_get zone_key session None logger st = (Raise e, st1).
Proof.
  intros Hs st1.
  assert (Hq : query json_loads arrow_get session st = (Raise e, st1))
    by (rewrite run_query, Hs; reflexivity).
  split; [exact Hq|].
  exact (fetch_raises_with_query json_loads arrow_get zone_key session logger st st1 e Hq).
Qed.

Lemma fetch_connection_error_witness :
  let st1 := mk_state ∅ [EvHttpGet NDC_GENERATION] in
  query Demo.json_loads Demo.arrow_get Sample.unreachable Demo.st0
    = (Raise (LibraryError "ConnectionError"), st1) /\
  fetch_production Demo.json_loads Demo.arrow_get "MN" Sample.unreachable None
    (getLogger "MN") Demo.st0 = (Raise (LibraryError "ConnectionError"), st1) /\
  fetch_consumption Demo.json_loads Demo.arrow_get "MN" Sample.unreachable None
    (getLogger "MN") Demo.st0 = (Raise (LibraryError "ConnectionError"), st1).
Proof.
  apply (fetch_connection_error Demo.json_loads Demo.arrow_get "MN" Sample.unreachable
           (getLogger "MN") Demo.st0 (LibraryError "ConnectionError")).
  reflexivity.
Defined.

(** X5. When the body of an accepted response ([Response.ok]) is not JSON,
    the exception of the decoder leaves [query] and the two fetches as it is,
    not as a [ParserException]; nothing was allocated, and the trace shows
    the GET and the decoding of that body. *)
Theorem fetch_decoder_error
    (json_loads : string -> result json)
    (arrow_get : value -> string -> tzinfo -> result datetime)
    (zone_key : string) (session : Session) (logger : Logger)
    (st : state) (r : Response) (e : exn) :
  session NDC_GENERATION = Ok r ->
  ok r = true ->
  json_loads (text r) = Raise e ->
  let st2 := mk_state (heap st)
               (trace st ++ [EvHttpGet NDC_GENERATION; EvJsonLoads (text r)]) in
  query json_loads arrow_get session st = (Raise e, st2) /\
  fetch_production json_loads arrow_get zone_key session None logger st = (Raise e, st2) /\
  fetch_consumption json_loads arrow_get zone_key session None logger st = (Raise e, st2).
Proof.
  intros Hs Hok Hj st2.
  assert (Hq : query json_loads arrow_get session st = (Raise e, st2)).
  { rewrite run_query, Hs, Hok, Hj. subst st2. cbn. by rewrite <- app_assoc. }
  split; [exact Hq|].
  exact (fetch_raises_with_query json_loads arrow_get zone_key session logger st st2 e Hq).
Qed.

Lemma fetch_decoder_error_witness :
  let st2 := mk_state ∅ [EvHttpGet NDC_GENERATION; EvJsonLoads "<html>"] in
  query Demo.json_loads Demo.arrow_get (Demo.serving 200 "<html>") Demo.st0
    = (Raise (LibraryError "JSONDecodeError"), st2) /\
  fetch_production Demo.json_loads Demo.arrow_get "MN" (Demo.serving 200 "<html>") None
    (getLogger "MN") Demo.st0 = (Raise (LibraryError "JSONDecodeError"), st2) /\
  fetch_consumption Demo.json_loads Demo.arrow_get "MN" (Demo.serving 200 "<html>") None
    (getLogger "MN") Demo.st0 = (Raise (LibraryError "JSONDecodeError"), st2).
Proof.
  apply (fetch_decoder_error Demo.json_loads Demo.arrow_get "MN"
           (Demo.serving 200 "<html>") (getLogger "MN") Demo.st0
           (mk_Response 200 "<html>") (LibraryError "JSONDecodeError")).
  - reflexivity.
  - reflexivity.
  - reflexivity.
Defined.

(** X6. Past the [ok] test the status code plays no part: two accepted
    responses with the same body, whatever their status codes, give the same
    run of [query], of [fetch_production] and of [fetch_consumption]. *)
Theorem fetch_ignores_accepted_status
    (json_loads : string -> result json)
    (arrow_get : value -> string -> tzinfo -> result datetime)
    (zone_key : string) (session1 session2 : Session) (logger : Logger)
    (st : state) (r1 r2 : Response) :
  session1 NDC_GENERATION = Ok r1 ->
  session2 NDC_GENERATION = Ok r2 ->
  ok r1 = true -> ok r2 = true ->
  text r1 = text r2 ->
  query json_loads arrow_get session1 st = query json_loads arrow_get session2 st /\
  fetch_production json_loads arrow_get zone_key session1 None logger st
    = fetch_production json_loads arrow_get zone_key session2 None logger st /\
  fetch_consumption json_loads arrow_get zone_key session1 None logger st
    = fetch_consumption json_loads arrow_get zone_key session2 None logger st.
Proof.
  intros H1 H2 Hok1 Hok2 Htext.
  assert (Hq : query json_loads arrow_get session1 st
               = query json_loads arrow_get session2 st).
  { rewrite !run_query, H1, H2, Hok1, Hok2, Htext. reflexivity. }
  split; [exact Hq|].
  unfold fetch_production, fetch_consumption. cbn [truthy].
  rewrite !run_bind, Hq. split; reflexivity.
Qed.

Lemma fetch_ignores_accepted_status_witness :
  query Demo.json_loads Demo.arrow_get (Demo.serving 201 "reading") Demo.st0
    = query Demo.json_loads Demo.arrow_get (Demo.serving 399 "reading") Demo.st0 /\
  fetch_production Demo.json_loads Demo.arrow_get "MN" (Demo.serving 201 "reading") None
    (getLogger "MN") Demo.st0
    = fetch_production Demo.json_loads Demo.arrow_get "MN" (Demo.serving 399 "reading") None
        (getLogger "MN") Demo.st0 /\
  fetch_consumption Demo.json_loads Demo.arrow_get "MN" (Demo.serving 201 "reading") None
    (getLogger "MN") Demo.st0
    = fetch_consumption Demo.json_loads Demo.arrow_get "MN" (Demo.serving 399 "reading") None
        (getLogger "MN") Demo.st0.
Proof.
  apply (fetch_ignores_accepted_status Demo.json_loads Demo.arrow_get "MN"
           (Demo.serving 201 "reading") (Demo.serving 399 "reading") (getLogger "MN")
           Demo.st0 (mk_Response 201 "reading") (mk_Response 399 "reading")).
  - reflexivity.
  - reflexivity.
  - reflexivity.
  - reflexivity.
  - reflexivity.
Defined.

(** X7. A body that is JSON but not an object (null, a bool, a number, a
    string, a list) makes [query] and the two fetches raise AttributeError,
    from the first line of [parse_json], not the [ParserException] of the
    validation. *)
Theorem fetch_non_object_body
    (json_loads : string -> result json)
    (arrow_get : value -> string -> tzinfo -> result datetime)
    (zone_key : string) (session : Session) (logger : Logger)
    (st : state) (r : Response) (j : json) :
  session NDC_GENERATION = Ok r ->
  ok r = true ->
  json_loads (text r) = Ok j ->
  is_object j = false ->
  fst (query json_loads arrow_get session st) = Raise AttributeError /\
  fst (fetch_production json_loads arrow_get zone_key session None logger st)
    = Raise AttributeError /\
  fst (fetch_consumption json_loads arrow_get zone_key session None logger st)
    = Raise AttributeError.
Proof.
  intros Hs Hok Hj Hobj.
  assert (Hq : exists st1,
            query json_loads arrow_get session st = (Raise AttributeError, st1)).
  { rewrite run_query, Hs, Hok, Hj. cbv zeta. cbn [negb heap trace].
    destruct (load_returns j
                (mk_state (heap st)
                   ((trace st ++ [EvHttpGet NDC_GENERATION]) ++ [EvJsonLoads (text r)])))
      as (w & st3 & Hload & _ & Hw).
    rewrite Hload. exists st3. apply parse_json_no_dict.
    destruct j; cbn in Hw; try discriminate; try (subst w; exact I).
    destruct Hw as (l0 & ys & -> & Hl). exists ys. exact Hl. }
  destruct Hq as (st1 & Hq).
  destruct (fetch_raises_with_query json_loads arrow_get zone_key session logger
              st st1 _ Hq) as [Hp Hc].
  rewrite Hq, Hp, Hc. repeat split.
Qed.

Lemma fetch_non_object_body_witness :
  (fst (query Sample.json_loads Demo.arrow_get (Demo.serving 200 "a list") Demo.st0)
     = Raise AttributeError /\
   fst (fetch_production Sample.json_loads Demo.arrow_get "MN"
          (Demo.serving 200 "a list") None (getLogger "MN") Demo.st0)
     = Raise AttributeError /\
   fst (fetch_consumption Sample.json_loads Demo.arrow_get "MN"
          (Demo.serving 200 "a list") None (getLogger "MN") Demo.st0)
     = Raise AttributeError)
  /\
  (fst (query Sample.json_loads Demo.arrow_get (Demo.serving 200 "a number") Demo.st0)
     = Raise AttributeError /\
   fst (fetch_production Sample.json_loads Demo.arrow_get "MN"
          (Demo.serving 200 "a number") None (getLogger "MN") Demo.st0)
     = Raise AttributeError /\
   fst (fetch_consumption Sample.json_loads Demo.arrow_get "MN"
          (Demo.serving 200 "a number") None (getLogger "MN") Demo.st0)
     = Raise AttributeError).
Proof.
  split.
  - apply (fetch_non_object_body Sample.json_loads Demo.arrow_get "MN"
             (Demo.serving 200 "a list") (getLogger "MN") Demo.st0
             (mk_Response 200 "a list") (JArr [JInt 1; JNull])).
    + reflexivity.
    + reflexivity.
    + reflexivity.
    + reflexivity.
  - apply (fetch_non_object_body Sample.json_loads Demo.arrow_get "MN"
             (Demo.serving 200 "a number") (getLogger "MN") Demo.st0
             (mk_Response 200 "a number") (JInt 42)).
    + reflexivity.
    + reflexivity.
    + reflexivity.
    + reflexivity.
Defined.

Section FetchFacts.

Variable json_loads : string -> result json.
Variable arrow_get : value -> string -> tzinfo -> result datetime.

(** The two fetches after [query], whichever way it ended. *)
Lemma fetch_after_query (zone_key : string) (session : Session) (logger : Logger)
    (st : state) :
  (exists e st1,
     query json_loads arrow_get session st = (Raise e, st1) /\
     fetch_production json_loads arrow_get zone_key session None logger st = (Raise e, st1) /\
     fetch_consumption json_loads arrow_get zone_key session None logger st = (Raise e, st1))
  \/
  (exists q st1 t c s w i tc,
     query json_loads arrow_get session st = (Ok (VRef q), st1) /\
     heap st !! q = None /\
     heap st1 !! q = Some (ODict (reading t c s w i tc)) /\
     (let u := unknownMW c i s w in
      let h1 := <[q := ODict (<["unknownMW" := VFloat u]> (reading t c s w i tc))]>
                  (heap st1) in
      let p := fresh (dom h1) in
      let h2 := <[p := ODict (production_mix u s w)]> h1 in
      let r := fresh (dom h2) in
      fetch_production json_loads arrow_get zone_key session None logger st =
      (Ok (VRef r),
       mk_state (<[r := ODict (production_record zone_key t (VRef p))]> h2) (trace st1))) /\
     (let r := fresh (dom (heap st1)) in
      fetch_consumption json_loads arrow_get zone_key session None logger st =
      (Ok (VRef r),
       mk_state (<[r := ODict (consumption_record zone_key t c)]> (heap st1)) (trace st1)))).
Proof.
  pose proof (query_facts json_loads arrow_get session st) as (_ & _ & Hok).
  destruct (query json_loads arrow_get session st) as [[qv|e] st1] eqn:Hq.
  - right. destruct (Hok qv eq_refl) as (q & t & c & s & w & i & tc & -> & Hnew & Hq1).
    cbn [snd] in Hq1. exists q, st1, t, c, s, w, i, tc.
    split; [reflexivity|]. split; [exact Hnew|]. split; [exact Hq1|]. split.
    + exact (run_fetch_production json_loads arrow_get zone_key session logger
               st st1 q t c s w i tc Hq Hq1).
    + exact (run_fetch_consumption json_loads arrow_get zone_key session logger
               st st1 q t c s w i tc Hq Hq1).
  - left. exists e, st1. split; [reflexivity|].
    exact (fetch_raises_with_query json_loads arrow_get zone_key session logger st st1 e Hq).
Qed.

End FetchFacts.

(** X8. The two fetches have no failure of their own once the target is
    None: [fetch_production] raises exactly when [query] raises, with the same
    exception and in the same state, and so does [fetch_consumption]. After a
    [query] that returned, the lookups, the subtractions and the rounding
    never raise. *)
Theorem fetch_fails_as_query
    (json_loads : string -> result json)
    (arrow_get : value -> string -> tzinfo -> result datetime)
    (zone_key : string) (session : Session) (logger : Logger) (st : state) :
  (forall e st',
     fetch_production json_loads arrow_get zone_key session None logger st = (Raise e, st')
     <-> query json_loads arrow_get session st = (Raise e, st'))
  /\
  (forall e st',
     fetch_consumption json_loads arrow_get zone_key session None logger st = (Raise e, st')
     <-> query json_loads arrow_get session st = (Raise e, st')).
Proof.
  destruct (fetch_after_query json_loads arrow_get zone_key session logger st)
    as [(e0 & st1 & Hq & Hp & Hc)
       |(q & st1 & t & c & s & w & i & tc & Hq & _ & _ & Hp & Hc)].
  - rewrite Hq, Hp, Hc. split; intros e st'; reflexivity.
  - cbv zeta in Hp, Hc. rewrite Hq, Hp, Hc.
    split; intros e st'; split; discriminate.
Qed.

Lemma fetch_fails_as_query_witness :
  let session := Demo.serving 200 "reading with syssum abc" in
  let st' := snd (query Demo.json_loads Demo.arrow_get session Demo.st0) in
  fetch_production Demo.json_loads Demo.arrow_get "MN" session None (getLogger "MN")
    Demo.st0 = (Raise ValueError, st')
  /\
  fetch_consumption Demo.json_loads Demo.arrow_get "MN" session None (getLogger "MN")
    Demo.st0 = (Raise ValueError, st').
Proof.
  intros session st'.
  destruct (fetch_fails_as_query Demo.json_loads Demo.arrow_get "MN" session
              (getLogger "MN") Demo.st0) as [Hp Hc].
  split.
  - apply Hp. vm_compute. reflexivity.
  - apply Hc. vm_compute. reflexivity.
Defined.

(** X9. However it ends, a fetch with no target issues exactly one GET, to
    [NDC_GENERATION], and decodes at most one body, after it: these are the
    only events it adds to the trace. *)
Theorem fetch_one_request
    (json_loads : string -> result json)
    (arrow_get : value -> string -> tzinfo -> result datetime)
    (zone_key : string) (session : Session) (logger : Logger) (st : state) :
  (exists tail,
     trace (snd (fetch_production json_loads arrow_get zone_key session None logger st))
       = (trace st ++ EvHttpGet NDC_GENERATION :: tail)%list /\
     (tail = [] \/ exists body, tail = [EvJsonLoads body]))
  /\
  (exists tail,
     trace (snd (fetch_consumption json_loads arrow_get zone_key session None logger st))
       = (trace st ++ EvHttpGet NDC_GENERATION :: tail)%list /\
     (tail = [] \/ exists body, tail = [EvJsonLoads body])).
Proof.
  pose proof (query_facts json_loads arrow_get session st) as (_ & Htrace & _).
  destruct (fetch_after_query json_loads arrow_get zone_key session logger st)
    as [(e0 & st1 & Hq & Hp & Hc)
       |(q & st1 & t & c & s & w & i & tc & Hq & _ & _ & Hp & Hc)].
  - rewrite Hq in Htrace. rewrite Hp, Hc. split; exact Htrace.
  - cbv zeta in Hp, Hc. rewrite Hq in Htrace. rewrite Hp, Hc. split; exact Htrace.
Qed.

(** X10. A fetch never modifies an object that existed before the call,
    however it ends and whatever the target: all its writes go to the dicts
    it allocates itself (the reading, to which [fetch_production] adds
    [unknownMW], and the result). *)
Theorem fetch_keeps_objects
    (json_loads : string -> result json)
    (arrow_get : value -> string -> tzinfo -> result datetime)
    (zone_key : string) (session : Session) (target : option datetime)
    (logger : Logger) (st : state) :
  keeps_objects st
    (snd (fetch_production json_loads arrow_get zone_key session target logger st))
  /\
  keeps_objects st
    (snd (fetch_consumption json_loads arrow_get zone_key session target logger st)).
Proof.
  destruct target as [d|]; [split; intros l o H; exact H|].
  pose proof (query_facts json_loads arrow_get session st) as (Hkeep & _ & _).
  destruct (fetch_after_query json_loads arrow_get zone_key session logger st)
    as [(e0 & st1 & Hq & Hp & Hc)
       |(q & st1 & t & c & s & w & i & tc & Hq & Hnew & Hq1 & Hp & Hc)].
  - rewrite Hq in Hkeep. rewrite Hp, Hc. split; exact Hkeep.
  - cbv zeta in Hp, Hc. rewrite Hq in Hkeep. cbn [snd] in Hkeep. rewrite Hp, Hc.
    split; intros l o Hl; cbn [snd heap].
    + assert (Hlq : l <> q) by (intros ->; congruence).
      assert (H1 : (<[q := ODict (<["unknownMW" := VFloat (unknownMW c i s w)]>
                                   (reading t c s w i tc))]> (heap st1)) !! l = Some o)
        by (rewrite lookup_insert_ne by congruence; apply Hkeep, Hl).
      rewrite lookup_insert_ne.
      * rewrite lookup_insert_ne; [exact H1|].
        apply not_eq_sym, (fresh_loc_ne _ _ _ H1).
      * apply not_eq_sym, (fresh_loc_ne _ l o).
        rewrite lookup_insert_ne; [exact H1|].
        apply not_eq_sym, (fresh_loc_ne _ _ _ H1).
    + rewrite lookup_insert_ne; [apply Hkeep, Hl|].
      apply not_eq_sym, (fresh_loc_ne _ l o). apply Hkeep, Hl.
Qed.

Lemma fetch_keeps_objects_witness :
  let st := Demo.holding (Demo.payload VNone) in
  (heap (snd (fetch_production Demo.json_loads Demo.arrow_get "MN"
                (Demo.serving 200 "reading") None (getLogger "MN") st)) !! 1%positive
     = Some (ODict (Demo.payload VNone)))
  /\
  (heap (snd (fetch_consumption Demo.json_loads Demo.arrow_get "MN"
                (Demo.serving 200 "reading with syssum abc") None (getLogger "MN") st))
     !! 1%positive
     = Some (ODict (Demo.payload VNone))).
Proof.
  intros st. split.
  - apply (fetch_keeps_objects Demo.json_loads Demo.arrow_get "MN"
             (Demo.serving 200 "reading") None (getLogger "MN") st).
    reflexivity.
  - apply (fetch_keeps_objects Demo.json_loads Demo.arrow_get "MN"
             (Demo.serving 200 "reading with syssum abc") None (getLogger "MN") st).
    reflexivity.
Defined.

Lemma unknownMW_nan (c i s w : PyFloat.float) :
  is_nan c || is_nan i || is_nan s || is_nan w = true ->
  unknownMW c i s w = S754_nan.
Proof.
  assert (Hl : forall y, PyFloat.sub S754_nan y = S754_nan) by reflexivity.
  assert (Hr : forall x, PyFloat.sub x S754_nan = S754_nan) by (intros []; reflexivity).
  unfold unknownMW. intros H.
  destruct w; try (rewrite Hr; reflexivity);
    destruct s; try (rewrite Hr, Hl; reflexivity);
    destruct i; try (rewrite Hr, !Hl; reflexivity);
    destruct c; try (rewrite !Hl; reflexivity); discriminate.
Qed.

(** X11. A NaN is not filtered: [float()] accepts the string nan, so such a
    reading passes [parse_json], and when the consumption, the import, the
    solar or the wind value of the reading is NaN, [fetch_production] returns
    normally with NaN as the [unknown] production. *)
Theorem fetch_production_nan
    (json_loads : string -> result json)
    (arrow_get : value -> string -> tzinfo -> result datetime)
    (zone_key : string) (session : Session) (logger : Logger)
    (st st1 : state) (q : loc) (t : datetime) (c s w i tc : PyFloat.float) :
  query json_loads arrow_get session st = (Ok (VRef q), st1) ->
  heap st1 !! q = Some (ODict (reading t c s w i tc)) ->
  is_nan c || is_nan i || is_nan s || is_nan w = true ->
  py_float (VStr "nan") = Ok S754_nan /\
  exists r p,
    fst (fetch_production json_loads arrow_get zone_key session None logger st)
      = Ok (VRef r) /\
    heap (snd (fetch_production json_loads arrow_get zone_key session None logger st)) !! r
      = Some (ODict (production_record zone_key t (VRef p))) /\
    heap (snd (fetch_production json_loads arrow_get zone_key session None logger st)) !! p
      = Some (ODict (production_mix S754_nan s w)).
Proof.
  intros Hq Hq1 Hnan. split; [reflexivity|].
  pose proof (run_fetch_production json_loads arrow_get zone_key session logger
                st st1 q t c s w i tc Hq Hq1) as Hp.
  cbv zeta in Hp. rewrite (unknownMW_nan c i s w Hnan) in Hp. rewrite Hp.
  eexists _, _. split; [reflexivity|]. cbn [snd heap].
  split; [apply lookup_insert_eq|].
  rewrite lookup_insert_ne; [apply lookup_insert_eq|].
  apply not_eq_sym, (fresh_loc_ne _ _ (ODict (production_mix S754_nan s w))).
  apply lookup_insert_eq.
Qed.

Lemma fetch_production_nan_witness :
  let session := Demo.serving 200 "syssum nan" in
  let run := fetch_production Sample.json_loads Demo.arrow_get "MN" session None
               (getLogger "MN") Demo.st0 in
  py_float (VStr "nan") = Ok S754_nan /\
  exists r p,
    fst run = Ok (VRef r) /\
    heap (snd run) !! r
      = Some (ODict (production_record "MN" (mk_datetime 2023 6 27 18 0 0 0 (Some TZ))
                       (VRef p))) /\
    heap (snd run) !! p
      = Some (ODict (production_mix S754_nan
                       (PyFloat.of_decimal false 4234 (-2))
                       (PyFloat.of_decimal false 11979 (-2)))).
Proof.
  intros session run.
  apply (fetch_production_nan Sample.json_loads Demo.arrow_get "MN" session
           (getLogger "MN") Demo.st0
           (snd (query Sample.json_loads Demo.arrow_get session Demo.st0))
           2%positive (mk_datetime 2023 6 27 18 0 0 0 (Some TZ))
           S754_nan (PyFloat.of_decimal false 4234 (-2))
           (PyFloat.of_decimal false 11979 (-2))
           (PyFloat.of_decimal false 4958 (-2)) (PyFloat.of_decimal false 17 0)).
  - vm_compute. reflexivity.
  - vm_compute. reflexivity.
  - reflexivity.
Defined.

(** X12. The two fetches agree. On the same session and state, when
    [fetch_production] returns, [fetch_consumption] returns as well, and both
    records come from the one reading that [query] returns there: with [t]
    its time and [c], [s], [w], [i] its consumption, solar, wind and import
    values, the production record has datetime [t] and the unknown computed
    from [c], [i], [s], [w], and the consumption record has the same
    datetime [t] and the consumption [c]. *)
Theorem fetches_agree
    (json_loads : string -> result json)
    (arrow_get : value -> string -> tzinfo -> result datetime)
    (zone_key zone_key' : string) (session : Session) (logger logger' : Logger)
    (st st' : state) (v : value) :
  fetch_production json_loads arrow_get zone_key session None logger st = (Ok v, st') ->
  exists q st1 t c s w i tc r p r',
    query json_loads arrow_get session st = (Ok (VRef q), st1) /\
    heap st1 !! q = Some (ODict (reading t c s w i tc)) /\
    v = VRef r /\
    heap st' !! r = Some (ODict (production_record zone_key t (VRef p))) /\
    heap st' !! p = Some (ODict (production_mix (unknownMW c i s w) s w)) /\
    fst (fetch_consumption json_loads arrow_get zone_key' session None logger' st)
      = Ok (VRef r') /\
    heap (snd (fetch_consumption json_loads arrow_get zone_key' session None logger' st))
      !! r' = Some (ODict (consumption_record zone_key' t c)).
Proof.
  intros Hrun.
  destruct (fetch_production_queried _ _ _ _ _ _ _ _ _ Hrun) as (_ & qv & st1 & Hq).
  destruct (query_ok _ _ _ _ _ _ Hq) as (q & t & c & s & w & i & tc & -> & Hq1).
  pose proof (run_fetch_production json_loads arrow_get zone_key session logger
                st st1 q t c s w i tc Hq Hq1) as Hp.
  pose proof (run_fetch_consumption json_loads arrow_get zone_key' session logger'
                st st1 q t c s w i tc Hq Hq1) as Hc.
  cbv zeta in Hp, Hc. rewrite Hp in Hrun. injection Hrun as <- <-. rewrite Hc.
  eexists q, st1, t, c, s, w, i, tc, _, _, _.
  split; [exact Hq|]. split; [exact Hq1|]. split; [reflexivity|]. cbn [fst snd heap].
  split; [apply lookup_insert_eq|]. split.
  - rewrite lookup_insert_ne; [apply lookup_insert_eq|].
    apply not_eq_sym, (fresh_loc_ne _ _ (ODict (production_mix (unknownMW c i s w) s w))).
    apply lookup_insert_eq.
  - split; [reflexivity|apply lookup_insert_eq].
Qed.

Lemma fetches_agree_witness :
  let session := Demo.serving 200 "reading" in
  let production := fetch_production Demo.json_loads Demo.arrow_get "MN" session None
                      (getLogger "MN") Demo.st0 in
  let consumption := fetch_consumption Demo.json_loads Demo.arrow_get "XX" session None
                       (getLogger "XX") Demo.st0 in
  exists q st1 t c s w i tc r p r',
    query Demo.json_loads Demo.arrow_get session Demo.st0 = (Ok (VRef q), st1) /\
    heap st1 !! q = Some (ODict (reading t c s w i tc)) /\
    VRef 4%positive = VRef r /\
    heap (snd production) !! r = Some (ODict (production_record "MN" t (VRef p))) /\
    heap (snd production) !! p = Some (ODict (production_mix (unknownMW c i s w) s w)) /\
    fst consumption = Ok (VRef r') /\
    heap (snd consumption) !! r' = Some (ODict (consumption_record "XX" t c)).
Proof.
  intros session production consumption.
  apply (fetches_agree Demo.json_loads Demo.arrow_get "MN" "XX" session
           (getLogger "MN") (getLogger "XX") Demo.st0 (snd production) (VRef 4%positive)).
  vm_compute. reflexivity.
Defined.

(** ** [float()] on a str that is not all ASCII (CPython 3.11) *)

(** Fullwidth and Arabic-Indic digits; a no-break space (U+00A0) before and
    an ideographic space (U+3000) after the number. *)
Example float_of_unicode_digits :
  PyFloat.of_string "１２" = Some (S754_finite false 6755399441055744 (-49)) /\
  PyFloat.of_string " 1.5　" = Some (S754_finite false 6755399441055744 (-52)) /\
  PyFloat.of_string "١٢.٥" = Some (S754_finite false 7036874417766400 (-49)).
Proof. repeat split; vm_compute; reflexivity. Qed.

(** Other characters outside ASCII are refused: a letter, the minus sign
    U+2212, fullwidth letters. *)
Example float_rejects_other_unicode :
  map PyFloat.of_string ["1é"; "−1"; "ｉｎｆ"] = [None; None; None].
Proof. vm_compute. reflexivity. Qed.

(** A [syssum] in fullwidth digits is a number for [parse_json]. *)
Example parse_json_on_unicode_digits :
  fst (parse_json Demo.arrow_get (VRef 1%positive)
         (Demo.holding (Demo.payload (VStr "１２"))))
  = Ok (VRef 2%positive).
Proof. vm_compute. reflexivity. Qed.
